(** * Jurimetria: query construction and record classification

    A shallow embedding of the query builders of [jurimetria_datajud.py]
    and [jurimetria_datajud_2.py] and of the date treatment and the
    per-process classification loop of [jurimetria_rce_saude.py],
    followed by the properties that the specification states of them. *)

From Stdlib Require Import ZArith List Bool Lia Permutation.
From Stdlib Require Import Strings.Ascii Strings.String.
From Stdlib Require Import Numbers.DecimalString.
From Stdlib Require OrderedTypeEx.
Import ListNotations.

Open Scope bool_scope.
Open Scope string_scope.
Open Scope Z_scope.

(** ** Python values shared by the three scripts *)

(** [str(n)] for a Python [int]. *)
Definition str_int (n : Z) : string := NilZero.string_of_int (Z.to_int n).

(** Truthiness of an optional [int] argument: [None] and [0] are falsy. *)
Definition truthy_int (v : option Z) : bool :=
  match v with
  | None => false
  | Some n => negb (n =? 0)
  end.

(** Truthiness of an optional [str]: [None] and the empty string are falsy. *)
Definition truthy_str (v : option string) : bool :=
  match v with
  | None => false
  | Some s => negb (s =? "")%string
  end.

(** [needle in hay] for two Python strings.  Strings are kept as their
    UTF-8 bytes; a substring test on the bytes agrees with the test on code
    points because UTF-8 is self-synchronising. *)
Fixpoint contem (needle hay : string) : bool :=
  prefix needle hay ||
  match hay with
  | EmptyString => false
  | String _ resto => contem needle resto
  end.

(** [any(termo in nome for termo in termos)]. *)
Definition algum_termo (termos : list string) (nome : string) : bool :=
  existsb (fun termo => contem termo nome) termos.

(** The JSON documents that the builders hand to the transport.  A Python
    [dict] is kept as its items in insertion order. *)
#[warnings="-register-all"]
Inductive json : Type :=
| JInt (n : Z)
| JStr (s : string)
| JList (itens : list json)
| JDict (itens : list (string * json)).

(** [d[k]] on the items of a dict; [None] when the key is missing. *)
Fixpoint chave (k : string) (itens : list (string * json)) : option json :=
  match itens with
  | [] => None
  | (k', v) :: resto => if (k =? k')%string then Some v else chave k resto
  end.

Definition campo_json (k : string) (j : json) : option json :=
  match j with
  | JDict itens => chave k itens
  | _ => None
  end.

Definition match_all : json := JDict [("match_all", JDict [])].

(** ["size"] of a built request, as an integer. *)
Definition size_de (q : json) : option Z :=
  match campo_json "size" q with
  | Some (JInt n) => Some n
  | _ => None
  end.

(** The clauses under [query.bool.must]; [None] when the query has no
    boolean wrapper. *)
Definition must_de (q : json) : option (list json) :=
  match campo_json "query" q with
  | Some qq =>
      match campo_json "bool" qq with
      | Some b =>
          match campo_json "must" b with
          | Some (JList cs) => Some cs
          | _ => None
          end
      | None => None
      end
  | None => None
  end.

(** The [date_range] dict that both builders fill key by key. *)
Definition date_range (data_inicio data_fim : option string) : json :=
  JDict ((match data_inicio with
          | Some s => if truthy_str data_inicio then [("gte", JStr s)] else []
          | None => []
          end) ++
         (match data_fim with
          | Some s => if truthy_str data_fim then [("lte", JStr s)] else []
          | None => []
          end)).

(** ** The search response as the scripts read it

    A response is the decoded JSON of the transport.  Every key that the
    scripts read is kept with the three states a reader of JSON has to
    tell apart: the key is missing, the key holds [null], or it holds a
    value of the type the API documents for it.  Values of any other JSON
    type are outside this model. *)
Inductive campo (A : Type) : Type :=
| Ausente
| Nulo
| Valor (a : A).
Arguments Ausente {A}.
Arguments Nulo {A}.
Arguments Valor {A} a.

(** [d.get(k, padrao)]: the default replaces a missing key only; a [null]
    comes back as Python's [None], here [None]. *)
Definition get {A : Type} (c : campo A) (padrao : A) : option A :=
  match c with
  | Ausente => Some padrao
  | Nulo => None
  | Valor a => Some a
  end.

(** [k in d]. *)
Definition presente {A : Type} (c : campo A) : bool :=
  match c with
  | Ausente => false
  | _ => true
  end.

(** An element of a JSON array that is expected to hold objects: an
    object, or anything else (for which [isinstance(x, dict)] is false and
    [x.get] does not exist). *)
Inductive item (A : Type) : Type :=
| Dict (a : A)
| Outro.
Arguments Dict {A} a.
Arguments Outro {A}.

(** What [d.get('codigo', '')] can hold: [None], the default [''] or a
    string, or the integer code. *)
Inductive celula : Type :=
| CNone
| CStr (s : string)
| CInt (n : Z).

Definition get_codigo (c : campo Z) (padrao : celula) : celula :=
  match c with
  | Ausente => padrao
  | Nulo => CNone
  | Valor n => CInt n
  end.

Definition truthy_celula (c : celula) : bool :=
  match c with
  | CNone => false
  | CStr s => negb (s =? "")%string
  | CInt n => negb (n =? 0)
  end.

(** [str(c)], also what an f-string prints for it. *)
Definition str_celula (c : celula) : string :=
  match c with
  | CNone => "None"
  | CStr s => s
  | CInt n => str_int n
  end.

Record cod_nome : Type := {
  codigo : campo Z;
  nome : campo string
}.

(** The empty dict [{}] used as a default. *)
Definition dict_vazio : cod_nome := {| codigo := Ausente; nome := Ausente |}.

Record movimento : Type := {
  mov_codigo : campo Z;
  mov_nome : campo string;
  mov_dataHora : campo string
}.

Record fonte : Type := {
  numeroProcesso : campo string;
  classe : campo cod_nome;
  orgaoJulgador : campo cod_nome;
  dataAjuizamento : campo string;
  dataHoraUltimaAtualizacao : campo string;
  assuntos : campo (list (item cod_nome));
  movimentos : campo (list (item movimento))
}.

Record hit : Type := { source_ : campo fonte }.

Record hits_obj : Type := { hits_hits : campo (list hit) }.

(** A response dict: its [hits] key and the names of its other keys. *)
Record resposta : Type := {
  hits : campo hits_obj;
  outras_chaves : list string
}.

(** [not resultado] for the [Optional[Dict]] of the transport: [None] and
    the empty dict are falsy. *)
Definition truthy_resposta (r : option resposta) : bool :=
  match r with
  | None => false
  | Some d =>
      presente (hits d) ||
      match outras_chaves d with
      | [] => false
      | _ => true
      end
  end.

(** [not resultado or 'hits' not in resultado]. *)
Definition sem_hits (r : option resposta) : bool :=
  negb (truthy_resposta r) ||
  match r with
  | None => true
  | Some d => negb (presente (hits d))
  end.

(** ** Exceptions

    The scripts catch exceptions in a few places only; everywhere else an
    exception leaves the function.  Code that can raise runs in this error
    monad. *)
Inductive excecao : Type :=
| AttributeError
| KeyError
| TypeError
| ValueError.

Inductive py (A : Type) : Type :=
| Ok (a : A)
| Raise (e : excecao).
Arguments Ok {A} a.
Arguments Raise {A} e.

Definition bind {A B : Type} (m : py A) (k : A -> py B) : py B :=
  match m with
  | Ok a => k a
  | Raise e => Raise e
  end.

Notation "x <- m ;; k" := (bind m (fun x => k))
  (at level 61, m at next level, right associativity).

(** [try: m / except: padrao]. *)
Definition tente {A : Type} (m : py A) (padrao : A) : A :=
  match m with
  | Ok a => a
  | Raise _ => padrao
  end.

(** A [for] loop whose body can raise: the first exception ends it. *)
Fixpoint para_cada {A B : Type} (corpo : A -> py B) (l : list A) : py (list B) :=
  match l with
  | [] => Ok []
  | x :: resto =>
      y <- corpo x ;;
      ys <- para_cada corpo resto ;;
      Ok (y :: ys)
  end.

(** [resultado['hits']['hits']], reached only when the key [hits] is there. *)
Definition lista_de_hits (r : option resposta) : py (list hit) :=
  match r with
  | None => Raise TypeError
  | Some d =>
      match hits d with
      | Ausente => Raise KeyError
      | Nulo => Raise TypeError
      | Valor h =>
          match hits_hits h with
          | Ausente => Raise KeyError
          | Nulo => Raise TypeError
          | Valor l => Ok l
          end
      end
  end.

(** [hit['_source']] followed by the first [.get] on it. *)
Definition source_de (h : hit) : py fonte :=
  match source_ h with
  | Ausente => Raise KeyError
  | Nulo => Raise AttributeError
  | Valor f => Ok f
  end.

(** [d.get(k, {})] followed by a [.get] on the result. *)
Definition sub_dict (c : campo cod_nome) : py cod_nome :=
  match get c dict_vazio with
  | None => Raise AttributeError
  | Some d => Ok d
  end.

(** [d.get(k, [])] followed by iteration over the result. *)
Definition lista {A : Type} (c : campo (list A)) : py (list A) :=
  match get c [] with
  | None => Raise TypeError
  | Some l => Ok l
  end.

(** ** [jurimetria_datajud.py] *)
Module DataJud.

Definition filtro_classe (c : Z) : json :=
  JDict [("term", JDict [("classe.codigo", JInt c)])].

Definition filtro_assunto (c : Z) : json :=
  JDict [("nested",
          JDict [("path", JStr "assuntos");
                 ("query", JDict [("term", JDict [("assuntos.codigo", JInt c)])])])].

Definition filtro_movimento (c : Z) : json :=
  JDict [("nested",
          JDict [("path", JStr "movimentos");
                 ("query", JDict [("term", JDict [("movimentos.codigo", JInt c)])])])].

Definition filtro_datas (data_inicio data_fim : option string) : json :=
  JDict [("range", JDict [("dataAjuizamento", date_range data_inicio data_fim)])].

(** The list that the four [if] blocks append to [query.bool.must]. *)
Definition clausulas (classe_codigo assunto_codigo movimento_codigo : option Z)
           (data_inicio data_fim : option string) : list json :=
  (match classe_codigo with
   | Some c => if truthy_int classe_codigo then [filtro_classe c] else []
   | None => []
   end) ++
  (match assunto_codigo with
   | Some c => if truthy_int assunto_codigo then [filtro_assunto c] else []
   | None => []
   end) ++
  (match movimento_codigo with
   | Some c => if truthy_int movimento_codigo then [filtro_movimento c] else []
   | None => []
   end) ++
  (if truthy_str data_inicio || truthy_str data_fim
   then [filtro_datas data_inicio data_fim] else []).

Definition construir_query (classe_codigo assunto_codigo movimento_codigo : option Z)
           (data_inicio data_fim : option string) (tamanho : Z) : json :=
  let must := clausulas classe_codigo assunto_codigo movimento_codigo
                        data_inicio data_fim in
  JDict [("size", JInt tamanho);
         ("query",
          match must with
          | [] => match_all
          | _ => JDict [("bool", JDict [("must", JList must)])]
          end)].

(** One entry of the list that [extrair_informacoes] returns. *)
Record info : Type := {
  info_numero : option string;
  info_classe : option string;
  info_orgao : option string;
  info_data_ajuizamento : option string;
  info_assuntos : list (option string);
  info_ultimo_movimento : option (option string * option string)
}.

Definition chave_data (x : item movimento) : py (option string) :=
  match x with
  | Dict m => Ok (get (mov_dataHora m) "")
  | Outro => Raise AttributeError
  end.

(** [max(movimentos, key=lambda x: x.get('dataHora', ''))] after its
    first element: a later element replaces the best one only when its
    key is strictly greater; comparing with [None] raises. *)
Fixpoint max_resto (melhor : item movimento) (k_melhor : option string)
         (l : list (item movimento)) : py (item movimento) :=
  match l with
  | [] => Ok melhor
  | x :: resto =>
      k <- chave_data x ;;
      match k, k_melhor with
      | Some a, Some b =>
          if (b <? a)%string then max_resto x k resto
          else max_resto melhor k_melhor resto
      | _, _ => Raise TypeError
      end
  end.

Definition ultimo_movimento (ms : option (list (item movimento)))
  : py (option (option string * option string)) :=
  match ms with
  | None | Some [] => Ok None
  | Some (x :: resto) =>
      k <- chave_data x ;;
      u <- max_resto x k resto ;;
      match u with
      | Dict m => Ok (Some (get (mov_nome m) "N/A", get (mov_dataHora m) "N/A"))
      | Outro => Raise AttributeError
      end
  end.

Definition extrair_hit (h : hit) : py info :=
  processo <- source_de h ;;
  let numero := get (numeroProcesso processo) "N/A" in
  c <- sub_dict (classe processo) ;;
  o <- sub_dict (orgaoJulgador processo) ;;
  let data := get (dataAjuizamento processo) "N/A" in
  l <- lista (assuntos processo) ;;
  nomes <- para_cada (fun a : item cod_nome =>
                        match a with
                        | Dict d => Ok (get (nome d) "N/A")
                        | Outro => Raise AttributeError
                        end) l ;;
  u <- ultimo_movimento (get (movimentos processo) []) ;;
  Ok {| info_numero := numero;
        info_classe := get (nome c) "N/A";
        info_orgao := get (nome o) "N/A";
        info_data_ajuizamento := data;
        info_assuntos := nomes;
        info_ultimo_movimento := u |}.

Definition extrair_informacoes (resultado : option resposta) : py (list info) :=
  if sem_hits resultado then Ok []
  else
    hs <- lista_de_hits resultado ;;
    para_cada extrair_hit hs.

End DataJud.

(** ** [jurimetria_datajud_2.py] *)
Module DataJud2.

Definition ou (alternativas : list json) : json :=
  JDict [("bool", JDict [("should", JList alternativas);
                         ("minimum_should_match", JInt 1)])].

Definition filtro_classe (c : Z) : json :=
  ou [JDict [("term", JDict [("classe.codigo", JStr (str_int c))])];
      JDict [("term", JDict [("classe.codigo", JInt c)])];
      JDict [("match", JDict [("classe.codigo", JInt c)])]].

Definition aninhado (path campo : string) (c : Z) : json :=
  JDict [("nested",
          JDict [("path", JStr path);
                 ("query",
                  JDict [("bool",
                          JDict [("should",
                                  JList [JDict [("term", JDict [(campo, JStr (str_int c))])];
                                         JDict [("term", JDict [(campo, JInt c)])]])])])])].

Definition filtro_assunto (c : Z) : json :=
  ou [aninhado "assuntos" "assuntos.codigo" c;
      JDict [("term", JDict [("assunto.codigo", JStr (str_int c))])];
      JDict [("term", JDict [("assunto.codigo", JInt c)])]].

Definition filtro_movimento (c : Z) : json :=
  ou [aninhado "movimentos" "movimentos.codigo" c].

Definition filtro_datas (data_inicio data_fim : option string) : json :=
  let dr := date_range data_inicio data_fim in
  ou [JDict [("range", JDict [("dataAjuizamento", dr)])];
      JDict [("range", JDict [("dataHoraUltimaAtualizacao", dr)])];
      JDict [("range", JDict [("@timestamp", dr)])]].

(** The local list [filtros]. *)
Definition filtros (classe_codigo assunto_codigo movimento_codigo : option Z)
           (data_inicio data_fim : option string) : list json :=
  (match classe_codigo with
   | Some c => if truthy_int classe_codigo then [filtro_classe c] else []
   | None => []
   end) ++
  (match assunto_codigo with
   | Some c => if truthy_int assunto_codigo then [filtro_assunto c] else []
   | None => []
   end) ++
  (match movimento_codigo with
   | Some c => if truthy_int movimento_codigo then [filtro_movimento c] else []
   | None => []
   end) ++
  (if truthy_str data_inicio || truthy_str data_fim
   then [filtro_datas data_inicio data_fim] else []).

Definition construir_query (classe_codigo assunto_codigo movimento_codigo : option Z)
           (data_inicio data_fim : option string) (tamanho : Z) : json :=
  let fs := filtros classe_codigo assunto_codigo movimento_codigo
                    data_inicio data_fim in
  JDict [("size", JInt (Z.min tamanho 100));
         ("query",
          match fs with
          | [] => match_all
          | _ => JDict [("bool", JDict [("must", JList ([] ++ fs))])]
          end)].

(** [construir_query_simples]. *)
Definition construir_query_simples (tamanho : Z) : json :=
  JDict [("size", JInt (Z.min tamanho 10)); ("query", match_all)].

(** [extrair_informacoes] has the same text in both scripts. *)
Definition extrair_informacoes (resultado : option resposta)
  : py (list DataJud.info) :=
  if sem_hits resultado then Ok []
  else
    hs <- lista_de_hits resultado ;;
    para_cada DataJud.extrair_hit hs.

End DataJud2.

(** ** What the scripts take from Python and pandas

    [str.lower] and [pandas.to_datetime] are not code of the repository.
    The classifier is defined over any implementation of them; a concrete
    one for ISO-8601 strings and the Latin-1 alphabet follows the
    classifier and is used to run it. *)

(** A pandas [Timestamp]: its [year] attribute, its [value] (the
    nanoseconds since the epoch, in UTC) and whether it carries a time
    zone ([tz] is not [None]). *)
Record Timestamp : Type := {
  year : Z;
  value : Z;
  tz_aware : bool
}.

(** The three outcomes of parsing a string: a timestamp, [NaT] (the
    string is one of pandas' null markers), or a string that is no
    date-time, which raises unless [errors='coerce'] turns it into [NaT]. *)
Inductive analise : Type :=
| Instante (t : Timestamp)
| NaT
| Invalida.

Class Biblioteca : Type := {
  lower : string -> string;
  to_datetime : string -> analise
}.

(** Nanoseconds in a day; [Timedelta.days] is the floor of the quotient. *)
Definition ns_por_dia : Z := 86400000000000.

(** [(b - a).days].  pandas refuses to subtract a timestamp with a time
    zone and one without: the difference raises [TypeError]. *)
Definition dias (b a : Timestamp) : py Z :=
  if Bool.eqb (tz_aware b) (tz_aware a)
  then Ok ((value b - value a) / ns_por_dia)
  else Raise TypeError.

(** ** [jurimetria_rce_saude.py] *)
Module RceSaude.
Section Classificador.

Context {bib : Biblioteca}.

(** [self.codigos_tutela]. *)
Definition codigos_tutela : list Z := [51; 60; 85; 26; 581; 454].

Definition termos_acordo : list string :=
  ["acordo"; "homologação"; "conciliação"; "mediação"].

Definition termos_sentenca : list string :=
  ["sentença"; "julgamento"; "decisão"].

(** [pd.to_datetime(s, errors='coerce')]; [None] is [NaT]. *)
Definition to_datetime_coerce (s : string) : option Timestamp :=
  match to_datetime s with
  | Instante t => Some t
  | NaT | Invalida => None
  end.

(** [pd.to_datetime(s)]; [None] is [NaT]. *)
Definition to_datetime_raise (s : string) : py (option Timestamp) :=
  match to_datetime s with
  | Instante t => Ok (Some t)
  | NaT => Ok None
  | Invalida => Raise ValueError
  end.

(** [_tratar_data].  The argument is what [d.get(k, '')] returned. *)
Definition _tratar_data (data_str : option string) : option string :=
  match data_str with
  | None => None
  | Some s =>
      if negb (truthy_str data_str) then None
      else if contem "2263" s || contem "2262" s || contem "2261" s then None
      else
        match to_datetime_coerce s with
        | None => None
        | Some dt =>
            if (year dt <? 1990) || (year dt >? 2030) then None
            else data_str
        end
  end.

(** [mov_codigo in self.codigos_tutela]. *)
Definition codigo_de_tutela (mov_codigo : option Z) : bool :=
  match mov_codigo with
  | None => false
  | Some c => existsb (Z.eqb c) codigos_tutela
  end.

(** [f"{mov_codigo}"]. *)
Definition fmt_codigo (mov_codigo : option Z) : string :=
  match mov_codigo with
  | None => "None"
  | Some c => str_int c
  end.

(** [mov_data < atual] where [atual] is a non-empty string. *)
Definition anterior (mov_data atual : option string) : bool :=
  match mov_data, atual with
  | Some d, Some a => (d <? a)%string
  | _, _ => false
  end.

(** The update
    [if mov_data and (not atual or mov_data < atual): atual = mov_data]. *)
Definition primeira_data (mov_data atual : option string) : option string :=
  if truthy_str mov_data && (negb (truthy_str atual) || anterior mov_data atual)
  then mov_data else atual.

(** The locals of the movement loop. *)
Record estado : Type := {
  tem_tutela : bool;
  tem_acordo : bool;
  tem_deferimento : bool;
  tem_indeferimento : bool;
  tem_sentenca : bool;
  movimentos_tutela : list string;
  movimentos_acordo : list string;
  data_primeira_tutela : option string;
  data_primeiro_acordo : option string
}.

Definition estado_inicial : estado :=
  {| tem_tutela := false;
     tem_acordo := false;
     tem_deferimento := false;
     tem_indeferimento := false;
     tem_sentenca := false;
     movimentos_tutela := [];
     movimentos_acordo := [];
     data_primeira_tutela := None;
     data_primeiro_acordo := None |}.

(** The two branches of the [if ... elif ...] on the lowered name. *)
Definition gatilho_deferimento (nome_min : string) : bool :=
  contem "deferimento" nome_min && negb (contem "indeferimento" nome_min).

Definition gatilho_indeferimento (nome_min : string) : bool :=
  negb (gatilho_deferimento nome_min) && contem "indeferimento" nome_min.

(** [movimento.get('nome', '').lower()]. *)
Definition nome_minusculo (m : movimento) : py string :=
  match get (mov_nome m) "" with
  | None => Raise AttributeError
  | Some s => Ok (lower s)
  end.

(** The body of [for movimento in movimentos]. *)
Definition passo (e : estado) (x : item movimento) : py estado :=
  match x with
  | Outro => Ok e
  | Dict m =>
      let codigo_mov := get (mov_codigo m) 0 in
      nome_mov <- nome_minusculo m ;;
      let mov_data := _tratar_data (get (mov_dataHora m) "") in
      let tutela := codigo_de_tutela codigo_mov in
      let acordo := algum_termo termos_acordo nome_mov in
      Ok {| tem_tutela := tem_tutela e || tutela;
            tem_acordo := tem_acordo e || acordo;
            tem_deferimento := tem_deferimento e || gatilho_deferimento nome_mov;
            tem_indeferimento := tem_indeferimento e || gatilho_indeferimento nome_mov;
            tem_sentenca := tem_sentenca e || algum_termo termos_sentenca nome_mov;
            movimentos_tutela :=
              if tutela then movimentos_tutela e ++ [fmt_codigo codigo_mov]
              else movimentos_tutela e;
            movimentos_acordo :=
              if acordo then movimentos_acordo e ++ [fmt_codigo codigo_mov]
              else movimentos_acordo e;
            data_primeira_tutela :=
              if tutela then primeira_data mov_data (data_primeira_tutela e)
              else data_primeira_tutela e;
            data_primeiro_acordo :=
              if acordo then primeira_data mov_data (data_primeiro_acordo e)
              else data_primeiro_acordo e |}
  end.

(** The whole loop from a given state of the locals. *)
Fixpoint percorrer (e : estado) (ms : list (item movimento)) : py estado :=
  match ms with
  | [] => Ok e
  | x :: resto =>
      e' <- passo e x ;;
      percorrer e' resto
  end.

(** The two [try] blocks that compute a number of days between two
    treated dates. *)
Definition dias_entre (inicio fim : option string) : option Z :=
  match inicio, fim with
  | Some i, Some f =>
      if truthy_str inicio && truthy_str fim then
        tente (dt_inicio <- to_datetime_raise i ;;
               dt_fim <- to_datetime_raise f ;;
               match dt_inicio, dt_fim with
               | Some a, Some b => d <- dias b a ;; Ok (Some d)
               | _, _ => Ok None
               end)
              None
      else None
  | _, _ => None
  end.

(** The subject loop: the codes and the names that are appended. *)
Fixpoint percorrer_assuntos (l : list (item cod_nome)) : list string * list string :=
  match l with
  | [] => ([], [])
  | Outro :: resto => percorrer_assuntos resto
  | Dict a :: resto =>
      let (codigos, nomes) := percorrer_assuntos resto in
      let c := get_codigo (codigo a) (CStr "") in
      let n := get (nome a) "" in
      (((if truthy_celula c then [str_celula c] else []) ++ codigos)%list,
       ((match n with
         | Some s => if truthy_str n then [s] else []
         | None => []
         end) ++ nomes)%list)
  end.

(** One row of the data frame, [processo_base].  The two columns that
    join a Python [set] keep the list the set is built from, because the
    order in which a set is traversed is not fixed by the script. *)
Record processo : Type := {
  numero_processo : option string;
  classe_codigo : celula;
  classe_nome : option string;
  data_ajuizamento : option string;
  data_ultima_atualizacao : option string;
  orgao_codigo : celula;
  orgao_nome : option string;
  assuntos_codigos : string;
  assuntos_nomes : string;
  flags : estado;
  tutela_e_acordo : bool;
  total_movimentos : Z;
  dias_tutela_acordo : option Z;
  dias_tramitacao : option Z
}.

(** The body of [for hit in resultado['hits']['hits']]. *)
Definition classificar (h : hit) : py processo :=
  source <- source_de h ;;
  let ajuizamento := _tratar_data (get (dataAjuizamento source) "") in
  let atualizacao := _tratar_data (get (dataHoraUltimaAtualizacao source) "") in
  let numero := get (numeroProcesso source) "" in
  c <- sub_dict (classe source) ;;
  o <- sub_dict (orgaoJulgador source) ;;
  la <- lista (assuntos source) ;;
  let (codigos, nomes) := percorrer_assuntos la in
  ms <- lista (movimentos source) ;;
  e <- percorrer estado_inicial ms ;;
  Ok {| numero_processo := numero;
        classe_codigo := get_codigo (codigo c) (CStr "");
        classe_nome := get (nome c) "";
        data_ajuizamento := ajuizamento;
        data_ultima_atualizacao := atualizacao;
        orgao_codigo := get_codigo (codigo o) (CStr "");
        orgao_nome := get (nome o) "";
        assuntos_codigos := String.concat "; " codigos;
        assuntos_nomes := String.concat "; " nomes;
        flags := e;
        tutela_e_acordo := tem_tutela e && tem_acordo e;
        total_movimentos := Z.of_nat (List.length ms);
        dias_tutela_acordo :=
          dias_entre (data_primeira_tutela e) (data_primeiro_acordo e);
        dias_tramitacao := dias_entre ajuizamento atualizacao |}.

(** [coletar_processos_detalhados] from the answer of [_fazer_requisicao]
    on: the rows of the data frame it returns.  A frame built from no row
    has no column, so the summary printed before the return, which reads
    the column [tem_tutela], raises on it. *)
Definition coletar_processos_detalhados (resultado : option resposta)
  : py (list processo) :=
  if sem_hits resultado then Ok []
  else
    hs <- lista_de_hits resultado ;;
    processos <- para_cada classificar hs ;;
    match processos with
    | [] => Raise KeyError
    | _ => Ok processos
    end.

End Classificador.
End RceSaude.

(** ** A concrete library for running the classifier

    [lower_latin1] lowers the letters of Basic Latin and of the Latin-1
    supplement in a UTF-8 string, which is what [str.lower] does on
    Portuguese text.  [iso_to_datetime] reads the forms [YYYY-MM-DD],
    [YYYY-MM-DDThh:mm:ss[.fff]] with an optional zone ([Z] or [+hh:mm] or
    [-hh:mm]) and the compact [YYYYMMDDhhmmss], and rejects instants that
    do not fit the 64-bit nanosecond range of a pandas [Timestamp].  A
    timestamp read with a zone is aware, one read without is naive.
    Other forms that pandas reads are outside this stand-in, which serves
    to run the classifier on the sample records only. *)
Module Iso.

Definition minuscula (c : ascii) : ascii :=
  let n := N_of_ascii c in
  if ((65 <=? n) && (n <=? 90))%N then ascii_of_N (n + 32) else c.

Fixpoint lower_latin1 (s : string) : string :=
  match s with
  | EmptyString => EmptyString
  | String c resto =>
      if (N_of_ascii c =? 195)%N then
        match resto with
        | EmptyString => String c EmptyString
        | String c2 resto2 =>
            let n := N_of_ascii c2 in
            if ((128 <=? n) && (n <=? 158) && negb (n =? 151))%N
            then String c (String (ascii_of_N (n + 32)) (lower_latin1 resto2))
            else String c (String c2 (lower_latin1 resto2))
        end
      else String (minuscula c) (lower_latin1 resto)
  end.

Definition digito (c : ascii) : option Z :=
  let n := Z.of_N (N_of_ascii c) in
  if (48 <=? n) && (n <=? 57) then Some (n - 48) else None.

(** Exactly [n] decimal digits at the head of [s]. *)
Fixpoint digitos (n : nat) (acc : Z) (s : string) : option (Z * string) :=
  match n with
  | O => Some (acc, s)
  | S n' =>
      match s with
      | EmptyString => None
      | String c resto =>
          match digito c with
          | Some d => digitos n' (10 * acc + d) resto
          | None => None
          end
      end
  end.

Definition sinal (c : ascii) (s : string) : option string :=
  match s with
  | String c' resto => if Ascii.eqb c c' then Some resto else None
  | EmptyString => None
  end.

(** Days from 1970-01-01 to the given civil date. *)
Definition dias_desde_epoca (y m d : Z) : Z :=
  let y' := if m <=? 2 then y - 1 else y in
  let era := y' / 400 in
  let yoe := y' - era * 400 in
  let mp := if m >? 2 then m - 3 else m + 9 in
  let doy := (153 * mp + 2) / 5 + d - 1 in
  let doe := yoe * 365 + yoe / 4 - yoe / 100 + doy in
  era * 146097 + doe - 719468.

Definition bissexto (y : Z) : bool :=
  ((y mod 4 =? 0) && negb (y mod 100 =? 0)) || (y mod 400 =? 0).

Definition dias_do_mes (y m : Z) : Z :=
  if m =? 2 then (if bissexto y then 29 else 28)
  else if (m =? 4) || (m =? 6) || (m =? 9) || (m =? 11) then 30
  else 31.

(** A fraction of a second of up to nine digits, in nanoseconds. *)
Fixpoint fracao (n : nat) (peso acc : Z) (s : string) : Z * string :=
  match n with
  | O => (acc, s)
  | S n' =>
      match s with
      | EmptyString => (acc, s)
      | String c resto =>
          match digito c with
          | Some d => fracao n' (peso / 10) (acc + d * peso) resto
          | None => (acc, s)
          end
      end
  end.

(** The zone after the time: none, [Z], or an offset from UTC; the
    offset in nanoseconds. *)
Definition fuso (s : string) : option (option Z) :=
  match s with
  | EmptyString => Some None
  | String c resto =>
      if Ascii.eqb c "Z" then
        if (resto =? "")%string then Some (Some 0) else None
      else if Ascii.eqb c "+" || Ascii.eqb c "-" then
        match digitos 2 0 resto with
        | Some (h, r1) =>
            match sinal ":" r1 with
            | Some r2 =>
                match digitos 2 0 r2 with
                | Some (mi, r3) =>
                    if (r3 =? "")%string && (h <? 24) && (mi <? 60) then
                      let ns := (h * 60 + mi) * 60 * 1000000000 in
                      Some (Some (if Ascii.eqb c "-" then - ns else ns))
                    else None
                | None => None
                end
            | None => None
            end
        | None => None
        end
      else None
  end.

(** The time of day after the date, in nanoseconds, and the zone. *)
Definition hora (s : string) : option (Z * option Z) :=
  match s with
  | EmptyString => Some (0, None)
  | String sep resto =>
      if Ascii.eqb sep "T" || Ascii.eqb sep " " then
        match digitos 2 0 resto with
        | Some (h, r1) =>
            match sinal ":" r1 with
            | Some r2 =>
                match digitos 2 0 r2 with
                | Some (mi, r3) =>
                    match sinal ":" r3 with
                    | Some r4 =>
                        match digitos 2 0 r4 with
                        | Some (se, r5) =>
                            let (ns, r6) :=
                              match sinal "." r5 with
                              | Some r => fracao 9 100000000 0 r
                              | None => (0, r5)
                              end in
                            match fuso r6 with
                            | Some z =>
                                if (h <? 24) && (mi <? 60) && (se <? 60)
                                then Some (((h * 60 + mi) * 60 + se) * 1000000000 + ns, z)
                                else None
                            | None => None
                            end
                        | None => None
                        end
                    | None => None
                    end
                | None => None
                end
            | None => None
            end
        | None => None
        end
      else None
  end.

(** The timestamp of a civil date, a time of day and a zone, when the
    date exists and the instant fits. *)
Definition instante (y m d ns : Z) (z : option Z) : option Timestamp :=
  let v := dias_desde_epoca y m d * ns_por_dia + ns
           - match z with
             | Some desvio => desvio
             | None => 0
             end in
  if (1 <=? m) && (m <=? 12) && (1 <=? d) && (d <=? dias_do_mes y m)
     && (- 9223372036854775807 <=? v) && (v <=? 9223372036854775807)
  then Some {| year := y;
               value := v;
               tz_aware := match z with
                           | Some _ => true
                           | None => false
                           end |}
  else None.

(** [YYYY-MM-DD] and what follows it. *)
Definition com_hifens (s : string) : option Timestamp :=
  match digitos 4 0 s with
  | Some (y, r1) =>
      match sinal "-" r1 with
      | Some r2 =>
          match digitos 2 0 r2 with
          | Some (m, r3) =>
              match sinal "-" r3 with
              | Some r4 =>
                  match digitos 2 0 r4 with
                  | Some (d, r5) =>
                      match hora r5 with
                      | Some (ns, z) => instante y m d ns z
                      | None => None
                      end
                  | None => None
                  end
              | None => None
              end
          | None => None
          end
      | None => None
      end
  | None => None
  end.

(** [YYYYMMDDhhmmss]. *)
Definition compacta (s : string) : option Timestamp :=
  match digitos 4 0 s with
  | Some (y, r1) =>
      match digitos 2 0 r1 with
      | Some (m, r2) =>
          match digitos 2 0 r2 with
          | Some (d, r3) =>
              match digitos 2 0 r3 with
              | Some (h, r4) =>
                  match digitos 2 0 r4 with
                  | Some (mi, r5) =>
                      match digitos 2 0 r5 with
                      | Some (se, r6) =>
                          if (r6 =? "")%string && (h <? 24) && (mi <? 60) && (se <? 60)
                          then instante y m d
                                        (((h * 60 + mi) * 60 + se) * 1000000000) None
                          else None
                      | None => None
                      end
                  | None => None
                  end
              | None => None
              end
          | None => None
          end
      | None => None
      end
  | None => None
  end.

Definition data_e_hora (s : string) : option Timestamp :=
  match com_hifens s with
  | Some t => Some t
  | None => compacta s
  end.

Definition iso_to_datetime (s : string) : analise :=
  if (s =? "")%string || (s =? "NaT")%string then NaT
  else
    match data_e_hora s with
    | Some t => Instante t
    | None => Invalida
    end.

Definition biblioteca : Biblioteca :=
  {| lower := lower_latin1; to_datetime := iso_to_datetime |}.

End Iso.

(** ** The retry loop of [jurimetria_rce_saude.py]

    [_fazer_requisicao] talks to the network.  The network is an oracle
    that answers the attempt of a given number; what the function does to
    the world is kept as the list of its requests and pauses. *)
Module Transporte.

(** The answer to one [requests.post]: status 200 with a body that
    decodes (to a dict or to [null]), any other status, or an exception
    (raised by the request or by the decoding of the body). *)
Inductive resposta_http : Type :=
| Http200 (corpo : option resposta)
| OutroStatus (codigo : Z)
| Excecao.

Inductive evento : Type :=
| Post (tentativa : Z)
| Sleep (segundos : Z).

Definition max_tentativas : Z := 3.

(** The body of [for tentativa in range(max_tentativas)], from attempt
    [tentativa] on, with [restantes] attempts left in the range. *)
Fixpoint tentar (post : Z -> resposta_http) (restantes : nat) (tentativa : Z)
  : option resposta * list evento :=
  match restantes with
  | O => (None, [])
  | S r =>
      match post tentativa with
      | Http200 corpo => (corpo, [Post tentativa])
      | OutroStatus _ | Excecao =>
          if tentativa <? max_tentativas - 1 then
            let (resultado, eventos) := tentar post r (tentativa + 1) in
            (resultado, Post tentativa :: Sleep 2 :: eventos)
          else (None, [Post tentativa])
      end
  end.

Definition _fazer_requisicao (post : Z -> resposta_http)
  : option resposta * list evento :=
  tentar post (Z.to_nat max_tentativas) 0.

End Transporte.

(** ** The counts of [calcular_metricas_completas]

    The rows of the data frame are the rows that
    [coletar_processos_detalhados] returns.  The entries of the metrics
    dict that are integers are kept; the rates, means and medians are
    floating-point numbers and are left out. *)
Module Metricas.
Section Contagens.

Context {bib : Biblioteca}.
Import RceSaude.

(** [int(df[coluna].sum())] for a column of booleans. *)
Definition soma (coluna : processo -> bool) (df : list processo) : Z :=
  Z.of_nat (List.length (filter coluna df)).

Record contagens : Type := {
  total_processos : Z;
  processos_com_tutela : Z;
  processos_com_acordo : Z;
  processos_tutela_e_acordo : Z;
  processos_com_deferimento : Z;
  processos_com_indeferimento : Z;
  processos_com_sentenca : Z
}.

(** [None] is the empty dict returned for an empty frame. *)
Definition calcular_metricas_completas (df : list processo) : option contagens :=
  match df with
  | [] => None
  | _ =>
      Some {| total_processos := Z.of_nat (List.length df);
              processos_com_tutela := soma (fun p => tem_tutela (flags p)) df;
              processos_com_acordo := soma (fun p => tem_acordo (flags p)) df;
              processos_tutela_e_acordo := soma tutela_e_acordo df;
              processos_com_deferimento := soma (fun p => tem_deferimento (flags p)) df;
              processos_com_indeferimento :=
                soma (fun p => tem_indeferimento (flags p)) df;
              processos_com_sentenca := soma (fun p => tem_sentenca (flags p)) df |}
  end.

(** [total_decisoes]. *)
Definition total_decisoes (m : contagens) : Z :=
  processos_com_deferimento m + processos_com_indeferimento m.

End Contagens.
End Metricas.

(** ** [visualizacao_datajud.py]: reading the metrics back *)

(** [int(s)] and [float(s)] of Python; [None] when they raise.  The type
    of floating-point numbers is left open, with the literal [11.4] of the
    script in it. *)
Class Conversoes : Type := {
  flutuante : Type;
  int_py : string -> option Z;
  float_py : string -> option flutuante;
  onze_virgula_quatro : flutuante
}.

Module Visualizacao.

(** [s.replace(c, por)] for a one-character [c]. *)
Fixpoint replace (c : ascii) (por : string) (s : string) : string :=
  match s with
  | EmptyString => EmptyString
  | String x resto =>
      if Ascii.eqb x c then (por ++ replace c por resto)%string
      else String x (replace c por resto)
  end.

Section Extracao.

Context {bib : Biblioteca} {conv : Conversoes}.

(** The dict [metricas]: a key is present when its field is [Some]. *)
Record metricas : Type := {
  total : option Z;
  tutela : option Z;
  acordo : option Z;
  tutela_acordo : option Z;
  efetividade : option flutuante
}.

Definition metricas_vazias : metricas :=
  {| total := None; tutela := None; acordo := None;
     tutela_acordo := None; efetividade := None |}.

(** [not metricas]. *)
Definition vazias (m : metricas) : bool :=
  match total m, tutela m, acordo m, tutela_acordo m, efetividade m with
  | None, None, None, None, None => true
  | _, _, _, _, _ => false
  end.

(** The values used for demonstration. *)
Definition metricas_padrao : metricas :=
  {| total := Some 2000; tutela := Some 1999; acordo := Some 227;
     tutela_acordo := Some 227; efetividade := Some onze_virgula_quatro |}.

(** [valor_str.replace(',', '').replace('.', '')]. *)
Definition valor_limpo (valor_str : string) : string :=
  replace "." "" (replace "," "" valor_str).

(** [valor_str.replace('%', '').replace(',', '.')]. *)
Definition valor_decimal (valor_str : string) : string :=
  replace "," "." (replace "%" "" valor_str).

(** The body of the loop over the rows; [metrica_str] and [valor_str]
    are [str(row['Métrica'])] and [str(row['Valor'])].  A conversion that
    raises leaves the dict as it is. *)
Definition linha (m : metricas) (celulas : string * string) : metricas :=
  let (metrica_str, valor_str) := celulas in
  let metrica := lower metrica_str in
  if contem "total" metrica && contem "processo" metrica then
    match int_py (valor_limpo valor_str) with
    | Some n => {| total := Some n; tutela := tutela m; acordo := acordo m;
                   tutela_acordo := tutela_acordo m; efetividade := efetividade m |}
    | None => m
    end
  else if contem "tutela" metrica && negb (contem "acordo" metrica) then
    match int_py (valor_limpo valor_str) with
    | Some n => {| total := total m; tutela := Some n; acordo := acordo m;
                   tutela_acordo := tutela_acordo m; efetividade := efetividade m |}
    | None => m
    end
  else if contem "acordo" metrica && negb (contem "tutela" metrica) then
    match int_py (valor_limpo valor_str) with
    | Some n => {| total := total m; tutela := tutela m; acordo := Some n;
                   tutela_acordo := tutela_acordo m; efetividade := efetividade m |}
    | None => m
    end
  else if contem "tutela" metrica && contem "acordo" metrica then
    match int_py (valor_limpo valor_str) with
    | Some n => {| total := total m; tutela := tutela m; acordo := acordo m;
                   tutela_acordo := Some n; efetividade := efetividade m |}
    | None => m
    end
  else if contem "efetividade" metrica then
    match float_py (valor_decimal valor_str) with
    | Some x => {| total := total m; tutela := tutela m; acordo := acordo m;
                   tutela_acordo := tutela_acordo m; efetividade := Some x |}
    | None => m
    end
  else m.

(** [extrair_metricas].  The frame is [None] when it lacks one of the
    columns [Métrica] and [Valor], and its rows otherwise. *)
Definition extrair_metricas (df_resumo : option (list (string * string)))
  : metricas :=
  let m := match df_resumo with
           | Some linhas => fold_left linha linhas metricas_vazias
           | None => metricas_vazias
           end in
  if vazias m then metricas_padrao else m.

End Extracao.

(** The column [Métrica] of the sheet [Resumo_Executivo] that
    [criar_dataframes_para_excel] of [jurimetria_rce_saude.py] writes. *)
Definition rotulos_resumo : list string :=
  ["Total de Processos";
   "Processos com Tutela";
   "Processos com Acordo";
   "Tutela + Acordo";
   "Efetividade das Tutelas (%)";
   "Taxa de Deferimento (%)";
   "Tempo Médio Tramitação (dias)";
   "Tempo Médio Tutela→Acordo (dias)"].

End Visualizacao.

(** * Vocabulary of the statements *)

(** [ocorre needle hay]: [needle] occurs somewhere in [hay]. *)
Definition ocorre (needle hay : string) : Prop :=
  exists antes depois, hay = (antes ++ needle ++ depois)%string.

(** [menor_de ds r]: [r] is the smallest string of [ds] in Python's string
    order, and is absent exactly when [ds] is empty. *)
Definition menor_de (ds : list string) (r : option string) : Prop :=
  match r with
  | None => ds = []
  | Some d => In d ds /\ forall d', In d' ds -> (d' <? d)%string = false
  end.

Section Vocabulario.

Context {bib : Biblioteca}.
Import RceSaude.

(** The lowered name the loop works with; [""] stands in where the name
    is [null] and the loop has nothing to work with. *)
Definition nome_de (m : movimento) : string :=
  match get (mov_nome m) "" with
  | Some s => lower s
  | None => ""
  end.

(** The entry is no dict, or its name is a string or missing. *)
Definition nome_utilizavel (x : item movimento) : bool :=
  match x with
  | Dict m =>
      match mov_nome m with
      | Nulo => false
      | _ => true
      end
  | Outro => true
  end.

Definition e_tutela (x : item movimento) : bool :=
  match x with
  | Dict m => codigo_de_tutela (get (mov_codigo m) 0)
  | Outro => false
  end.

Definition e_acordo (x : item movimento) : bool :=
  match x with
  | Dict m => algum_termo termos_acordo (nome_de m)
  | Outro => false
  end.

Definition defere (x : item movimento) : bool :=
  match x with
  | Dict m => contem "deferimento" (nome_de m)
              && negb (contem "indeferimento" (nome_de m))
  | Outro => false
  end.

Definition indefere (x : item movimento) : bool :=
  match x with
  | Dict m => contem "indeferimento" (nome_de m)
  | Outro => false
  end.

Definition sentencia (x : item movimento) : bool :=
  match x with
  | Dict m => algum_termo termos_sentenca (nome_de m)
  | Outro => false
  end.

(** The input that [_tratar_data] is specified to let through: a
    non-empty string with none of the three sentinel years in it that
    parses to a timestamp of a year from 1990 to 2030. *)
Definition data_aceitavel (data_str : option string) : Prop :=
  exists s dt,
    data_str = Some s
    /\ s <> ""
    /\ ~ ocorre "2261" s /\ ~ ocorre "2262" s /\ ~ ocorre "2263" s
    /\ to_datetime s = Instante dt
    /\ 1990 <= year dt <= 2030.

(** The treated date of a movement. *)
Definition data_de (x : item movimento) : option string :=
  match x with
  | Dict m => _tratar_data (get (mov_dataHora m) "")
  | Outro => None
  end.

(** The treated dates of the movements that [sel] selects, in order. *)
Definition datas (sel : item movimento -> bool) (ms : list (item movimento))
  : list string :=
  flat_map (fun x => if sel x
                     then match data_de x with
                          | Some d => [d]
                          | None => []
                          end
                     else []) ms.

(** The movement list that the loop of a hit runs over. *)
Definition movimentos_de (h : hit) : list (item movimento) :=
  match source_ h with
  | Valor f =>
      match movimentos f with
      | Valor ms => ms
      | _ => []
      end
  | _ => []
  end.

(** A hit on which no [.get] meets a [null] and no loop meets one: the
    record is there, class, issuing body, subject list and movement list
    are not [null], and no movement has a [null] name. *)
Definition bem_formado (h : hit) : bool :=
  match source_ h with
  | Valor f =>
      match classe f, orgaoJulgador f, assuntos f, movimentos f with
      | Nulo, _, _, _ | _, Nulo, _, _ | _, _, Nulo, _ | _, _, _, Nulo => false
      | _, _, _, _ => forallb nome_utilizavel (movimentos_de h)
      end
  | _ => false
  end.

(** Every flag set in [p] is set in [q]. *)
Definition flags_le (p q : processo) : Prop :=
  (tem_tutela (flags p) = true -> tem_tutela (flags q) = true)
  /\ (tem_acordo (flags p) = true -> tem_acordo (flags q) = true)
  /\ (tem_deferimento (flags p) = true -> tem_deferimento (flags q) = true)
  /\ (tem_indeferimento (flags p) = true -> tem_indeferimento (flags q) = true)
  /\ (tem_sentenca (flags p) = true -> tem_sentenca (flags q) = true)
  /\ (tutela_e_acordo p = true -> tutela_e_acordo q = true).

(** The record [f] with [ms] as its movement list. *)
Definition com_movimentos (f : fonte) (ms : list (item movimento)) : fonte :=
  {| numeroProcesso := numeroProcesso f;
     classe := classe f;
     orgaoJulgador := orgaoJulgador f;
     dataAjuizamento := dataAjuizamento f;
     dataHoraUltimaAtualizacao := dataHoraUltimaAtualizacao f;
     assuntos := assuntos f;
     movimentos := Valor ms |}.

End Vocabulario.

(** ** Vocabulary for the rest of the scripts *)

(** The number of clauses the filters call for: one for each of class,
    subject and movement code that is truthy, and one for the dates when
    either of them is. *)
Definition n_filtros (c a m : option Z) (di df : option string) : nat :=
  ((if truthy_int c then 1 else 0)
   + (if truthy_int a then 1 else 0)
   + (if truthy_int m then 1 else 0)
   + (if truthy_str di || truthy_str df then 1 else 0))%nat.

(** The boolean-must wrapper around a list of clauses. *)
Definition bool_must (clausulas : list json) : json :=
  JDict [("bool", JDict [("must", JList clausulas)])].

(** The last clause under [query.bool.must] of a built request. *)
Definition ultima_clausula (q : json) : option json :=
  match must_de q with
  | Some cs => last (map Some cs) None
  | None => None
  end.

(** The bounds that a range clause puts on the field [campo]. *)
Definition intervalo (campo : string) (clausula : json) : option json :=
  match campo_json "range" clausula with
  | Some r => campo_json campo r
  | None => None
  end.

(** The alternatives under [bool.should] of a clause. *)
Definition alternativas (clausula : json) : option (list json) :=
  match campo_json "bool" clausula with
  | Some b =>
      match campo_json "should" b with
      | Some (JList l) => Some l
      | _ => None
      end
  | None => None
  end.

(** The key by which [max] compares a movement. *)
Definition chave_de (x : item movimento) : option string :=
  match x with
  | Dict m => get (mov_dataHora m) ""
  | Outro => None
  end.

(** The movement lists on which the search for the last movement does
    not raise: no list, the empty list, a single dict, or dicts that all
    have a date that is not [null]. *)
Definition ultimo_ok (ms : option (list (item movimento))) : bool :=
  match ms with
  | None | Some [] | Some [Dict _] => true
  | Some l => forallb (fun x => match chave_de x with
                                | Some _ => true
                                | None => false
                                end) l
  end.

(** A hit that [extrair_informacoes] gets through: the record is there,
    class and issuing body are not [null], the subject list is not [null]
    and holds dicts only, and the movement list is one of [ultimo_ok]. *)
Definition extraivel (h : hit) : bool :=
  match source_ h with
  | Valor f =>
      match classe f, orgaoJulgador f with
      | Nulo, _ | _, Nulo => false
      | _, _ =>
          match get (assuntos f) [] with
          | None => false
          | Some la =>
              forallb (fun a : item cod_nome =>
                         match a with
                         | Dict _ => true
                         | Outro => false
                         end) la
              && ultimo_ok (get (movimentos f) [])
          end
      end
  | _ => false
  end.

(** A date of an output row: none, or one that [_tratar_data] lets
    through. *)
Definition data_limpa {bib : Biblioteca} (d : option string) : Prop :=
  d = None \/ data_aceitavel d.

(** An attempt that did not answer 200 with a body that decodes. *)
Definition falhou (r : Transporte.resposta_http) : Prop :=
  match r with
  | Transporte.Http200 _ => False
  | _ => True
  end.

(** The requests and pauses of [n] attempts in a row: a pause of two
    seconds between one attempt and the next, none after the last. *)
Fixpoint roteiro (primeira : Z) (n : nat) : list Transporte.evento :=
  match n with
  | O => []
  | S O => [Transporte.Post primeira]
  | S n' => Transporte.Post primeira :: Transporte.Sleep 2 :: roteiro (primeira + 1) n'
  end.

(** Conversions for running [extrair_metricas]: [int] of an optional
    minus sign and decimal digits; a floating-point number is kept as the
    decimal literal it is read from. *)
Module IsoConv.

Fixpoint so_digitos (s : string) : bool :=
  match s with
  | EmptyString => true
  | String c resto =>
      match Iso.digito c with
      | Some _ => so_digitos resto
      | None => false
      end
  end.

Fixpoint valor_digitos (acc : Z) (s : string) : Z :=
  match s with
  | EmptyString => acc
  | String c resto =>
      match Iso.digito c with
      | Some d => valor_digitos (10 * acc + d) resto
      | None => acc
      end
  end.

Definition int_decimal (s : string) : option Z :=
  match s with
  | EmptyString => None
  | String "-" resto =>
      if so_digitos resto && negb (resto =? "")%string
      then Some (- valor_digitos 0 resto) else None
  | _ => if so_digitos s then Some (valor_digitos 0 s) else None
  end.

(** The number of occurrences of a character. *)
Fixpoint ocorrencias (c : ascii) (s : string) : nat :=
  match s with
  | EmptyString => O
  | String x resto =>
      ((if Ascii.eqb x c then 1 else 0) + ocorrencias c resto)%nat
  end.

(** A decimal literal: an optional minus sign, digits, and at most one
    point among them. *)
Definition float_literal (s : string) : option string :=
  match int_decimal (Visualizacao.replace "." "" s) with
  | Some _ => if (ocorrencias "." s <=? 1)%nat then Some s else None
  | None => None
  end.

Definition conversoes : Conversoes :=
  {| flutuante := string;
     int_py := int_decimal;
     float_py := float_literal;
     onze_virgula_quatro := "11.4" |}.

End IsoConv.

(** * Sample records *)
Module Exemplos.

Definition mov (c : Z) (n : campo string) (d : string) : item movimento :=
  Dict {| mov_codigo := Valor c; mov_nome := n; mov_dataHora := Valor d |}.

(** A complete record around the movement list [ms]. *)
Definition fonte_de (ms : list (item movimento)) : fonte :=
  {| numeroProcesso := Valor "10012345620248110001";
     classe := Valor {| codigo := Valor 7; nome := Valor "Procedimento Comum Cível" |};
     orgaoJulgador := Valor {| codigo := Valor 9871; nome := Valor "1a Vara" |};
     dataAjuizamento := Valor "2024-01-05T00:00:00.000Z";
     dataHoraUltimaAtualizacao := Valor "2024-04-02T10:30:00.000Z";
     assuntos := Valor [Dict {| codigo := Valor 12491; nome := Valor "Saúde" |};
                        Dict {| codigo := Nulo; nome := Nulo |};
                        Outro];
     movimentos := Valor ms |}.

Definition hit_de (ms : list (item movimento)) : hit :=
  {| source_ := Valor (fonte_de ms) |}.

(** Relief granted on 10 January, settlement ratified on 1 March. *)
Definition tutela_depois_acordo : list (item movimento) :=
  [mov 51 (Valor "Concessão de tutela") "2024-01-10";
   mov 466 (Valor "Homologação de Acordo") "2024-03-01"].

(** The settlement movement is dated before the relief movement. *)
Definition acordo_antes_da_tutela : list (item movimento) :=
  [mov 60 (Valor "Liminar") "2024-03-01";
   mov 466 (Valor "Homologação de Acordo") "2024-01-10"].

(** Three relief movements: a later one, one whose date is a sentinel,
    and the earliest one. *)
Definition tres_tutelas : list (item movimento) :=
  [mov 51 (Valor "Concessão") "2024-02-10";
   mov 60 (Valor "Liminar") "2263-01-01T00:00:00.000Z";
   mov 85 Ausente "2024-01-10";
   mov 466 (Valor "Audiência de Conciliação") "2024-03-01"].

(** The relief movement is dated with a time zone, the settlement
    movement without. *)
Definition fusos_mistos : list (item movimento) :=
  [mov 51 (Valor "Concessão de tutela") "2024-01-10T00:00:00.000Z";
   mov 466 (Valor "Homologação de Acordo") "2024-03-01"].

Definition so_indeferimento : list (item movimento) :=
  [mov 11010 (Valor "Indeferimento do pedido de tutela") "2024-02-02"].

Definition deferimento_e_indeferimento : list (item movimento) :=
  [mov 11010 (Valor "Indeferimento do pedido de tutela") "2024-02-02";
   mov 11011 (Valor "Deferimento da liminar") "2024-02-20"].

(** A movement whose name is [null]. *)
Definition nome_nulo : item movimento := mov 51 Nulo "2024-01-10".

(** A record whose class is [null]. *)
Definition hit_classe_nula : hit :=
  {| source_ :=
       Valor {| numeroProcesso := Valor "10012345620248110001";
                classe := Nulo;
                orgaoJulgador := Ausente;
                dataAjuizamento := Valor "2024-01-05T00:00:00.000Z";
                dataHoraUltimaAtualizacao := Ausente;
                assuntos := Valor [];
                movimentos := Valor [] |} |}.

Definition resposta_de (hs : list hit) : option resposta :=
  Some {| hits := Valor {| hits_hits := Valor hs |};
          outras_chaves := ["took"; "timed_out"; "_shards"] |}.

End Exemplos.

(** * Properties *)

(** ** Substrings *)

Lemma prefix_spec (p s : string) :
  prefix p s = true <-> exists depois, s = (p ++ depois)%string.
Proof.
  revert s; induction p as [|c p IH]; intros s.
  - split; [intros _; now exists s | intros _; now destruct s].
  - destruct s as [|c' s]; simpl.
    + split; [discriminate | intros [d Hd]; discriminate].
    + destruct (ascii_dec c c') as [->|Hne].
      * rewrite IH. split; intros [d Hd]; exists d.
        -- now rewrite Hd.
        -- now inversion Hd.
      * split; [discriminate | intros [d Hd]; inversion Hd; congruence].
Qed.

Lemma contem_spec (needle hay : string) :
  contem needle hay = true <-> ocorre needle hay.
Proof.
  induction hay as [|c hay IH].
  - cbn [contem]. rewrite orb_false_r, prefix_spec. split.
    + intros [d Hd]. exists EmptyString, d. exact Hd.
    + intros [a [d Hd]]. destruct a; [now exists d | discriminate].
  - cbn [contem]. rewrite orb_true_iff, IH, prefix_spec. split.
    + intros [[d Hd] | [a [d Hd]]].
      * exists EmptyString, d. exact Hd.
      * exists (String c a), d. simpl. now rewrite Hd.
    + intros [a [d Hd]]. destruct a as [|c' a].
      * left. now exists d.
      * right. simpl in Hd. inversion Hd. now exists a, d.
Qed.

Lemma contem_false (needle hay : string) :
  contem needle hay = false <-> ~ ocorre needle hay.
Proof.
  rewrite <- contem_spec. destruct (contem needle hay); split; intros H;
    try reflexivity; try discriminate; try (intros H'; discriminate).
  now contradiction H.
Qed.

(** ** The query builders *)

Lemma truthy_int_zero : truthy_int (Some 0) = false.
Proof. reflexivity. Qed.

(** C1, as amended: the builder of [jurimetria_datajud_2.py] caps the page
    size at 100 and has no lower bound: the size of the built request is
    100 when the requested size exceeds 100 and the requested size itself
    otherwise, whatever the filters. *)
Theorem construir_query_size_min (classe_codigo assunto_codigo movimento_codigo : option Z)
        (data_inicio data_fim : option string) (tamanho : Z) :
  size_de (DataJud2.construir_query classe_codigo assunto_codigo movimento_codigo
                                    data_inicio data_fim tamanho)
  = Some (if 100 <? tamanho then 100 else tamanho).
Proof.
  unfold DataJud2.construir_query, size_de. cbn.
  f_equal. destruct (Z.ltb_spec 100 tamanho); lia.
Qed.

(** C1, refuted as stated: a requested page size of 0 is not raised to 1;
    the request built by [jurimetria_datajud_2.py] carries size 0. *)
Lemma construir_query_size_zero :
  ~ (exists n, size_de (DataJud2.construir_query None None None None None 0) = Some n
               /\ 1 <= n <= 100).
Proof.
  intros [n [H Hn]]. cbn in H. inversion H. lia.
Qed.

(** C7: with no filter given, both builders return the match-all object as
    the query, and no boolean wrapper. *)
Theorem construir_query_match_all (tamanho : Z) :
  campo_json "query" (DataJud.construir_query None None None None None tamanho)
  = Some match_all
  /\ must_de (DataJud.construir_query None None None None None tamanho) = None
  /\ campo_json "query" (DataJud2.construir_query None None None None None tamanho)
     = Some match_all
  /\ must_de (DataJud2.construir_query None None None None None tamanho) = None.
Proof. repeat split. Qed.

(** C10: a class, subject or movement code of 0 adds no clause; the
    request is the one built with that field unset, in both builders, and
    with 0 as the only field it is the match-all request. *)
Theorem construir_query_codigo_zero (c a m : option Z) (di df : option string)
        (tamanho : Z) :
  (DataJud.construir_query (Some 0) a m di df tamanho
   = DataJud.construir_query None a m di df tamanho
   /\ DataJud.construir_query c (Some 0) m di df tamanho
      = DataJud.construir_query c None m di df tamanho
   /\ DataJud.construir_query c a (Some 0) di df tamanho
      = DataJud.construir_query c a None di df tamanho)
  /\ (DataJud2.construir_query (Some 0) a m di df tamanho
      = DataJud2.construir_query None a m di df tamanho
      /\ DataJud2.construir_query c (Some 0) m di df tamanho
         = DataJud2.construir_query c None m di df tamanho
      /\ DataJud2.construir_query c a (Some 0) di df tamanho
         = DataJud2.construir_query c a None di df tamanho)
  /\ campo_json "query" (DataJud.construir_query (Some 0) None None None None tamanho)
     = Some match_all
  /\ campo_json "query" (DataJud2.construir_query (Some 0) None None None None tamanho)
     = Some match_all.
Proof.
  unfold DataJud.construir_query, DataJud2.construir_query,
    DataJud.clausulas, DataJud2.filtros.
  rewrite truthy_int_zero. repeat split.
Qed.

(** ** A response without hits *)

Lemma sem_hits_ausente (r : option resposta) :
  match r with
  | None => True
  | Some d => hits d = Ausente
  end ->
  sem_hits r = true.
Proof.
  destruct r as [d|]; [|reflexivity].
  intros H. unfold sem_hits. cbn. rewrite H. cbn. apply orb_true_r.
Qed.

(** C9: for a response that is absent, or is a dict without the key
    [hits] (the empty dict included), each of the three extraction
    functions returns the empty list and raises nothing. *)
Theorem sem_hits_lista_vazia (bib : Biblioteca) (r : option resposta) :
  match r with
  | None => True
  | Some d => hits d = Ausente
  end ->
  DataJud.extrair_informacoes r = Ok []
  /\ DataJud2.extrair_informacoes r = Ok []
  /\ RceSaude.coletar_processos_detalhados r = Ok [].
Proof.
  intros H. apply sem_hits_ausente in H.
  unfold DataJud.extrair_informacoes, DataJud2.extrair_informacoes,
    RceSaude.coletar_processos_detalhados.
  rewrite H. repeat split.
Qed.

Lemma sem_hits_lista_vazia_witness :
  let r := Some {| hits := Ausente; outras_chaves := ["error"%string] |} in
  DataJud.extrair_informacoes r = Ok []
  /\ DataJud2.extrair_informacoes r = Ok []
  /\ RceSaude.coletar_processos_detalhados (bib := Iso.biblioteca) r = Ok [].
Proof.
  intros r. apply (sem_hits_lista_vazia Iso.biblioteca r). reflexivity.
Defined.

(** ** The order of Python strings *)

Lemma ltb_lt (a b : string) : (a <? b)%string = true <-> OrderedTypeEx.String_as_OT.lt a b.
Proof.
  unfold String.ltb. rewrite <- OrderedTypeEx.String_as_OT.cmp_lt. unfold OrderedTypeEx.String_as_OT.cmp.
  destruct (a ?= b)%string; split; intros H; try reflexivity; discriminate.
Qed.

Lemma ltb_irrefl (a : string) : (a <? a)%string = false.
Proof.
  unfold String.ltb.
  assert (H : (a ?= a)%string = Eq) by now apply OrderedTypeEx.String_as_OT.cmp_eq.
  now rewrite H.
Qed.

Lemma ltb_trans (a b c : string) :
  (a <? b)%string = true -> (b <? c)%string = true -> (a <? c)%string = true.
Proof.
  rewrite !ltb_lt. apply OrderedTypeEx.String_as_OT.lt_trans.
Qed.

Lemma ltb_total (a b : string) :
  (a <? b)%string = false -> (b <? a)%string = false -> a = b.
Proof.
  unfold String.ltb. rewrite (String.compare_antisym b a).
  destruct (a ?= b)%string eqn:E; simpl; intros; try discriminate.
  now apply String.compare_eq_iff.
Qed.

(** Whoever is below [d] is below everything that [d] is below. *)
Lemma ltb_false_trans (a d x : string) :
  (d <? a)%string = true -> (x <? a)%string = false -> (x <? d)%string = false.
Proof.
  intros Hda Hxa. destruct (x <? d)%string eqn:E; [|reflexivity].
  rewrite (ltb_trans _ _ _ E Hda) in Hxa. discriminate.
Qed.

(** The smallest string of a list is unique. *)
Lemma menor_de_unico (ds : list string) (r r' : option string) :
  menor_de ds r -> menor_de ds r' -> r = r'.
Proof.
  destruct r as [a|], r' as [b|]; simpl.
  - intros [Ha Hma] [Hb Hmb]. f_equal. apply ltb_total; auto.
  - intros [Ha _] ->. destruct Ha.
  - intros -> [Hb _]. destruct Hb.
  - reflexivity.
Qed.

(** ** The treatment of dates *)
Section Datas.

Context {bib : Biblioteca}.
Import RceSaude.

Lemma truthy_str_Some (s : string) : truthy_str (Some s) = true <-> s <> "".
Proof.
  simpl. destruct (String.eqb_spec s ""); simpl; split; intros H;
    try reflexivity; try discriminate; congruence.
Qed.

(** C3: [_tratar_data] returns its input unchanged when the input is a
    non-empty string in which none of "2261", "2262", "2263" occurs,
    which parses as a date-time, and whose year is from 1990 to 2030;
    in every other case it returns nothing. *)
Theorem tratar_data_spec (data_str : option string) :
  (data_aceitavel data_str /\ _tratar_data data_str = data_str)
  \/ (~ data_aceitavel data_str /\ _tratar_data data_str = None).
Proof.
  destruct data_str as [s|].
  2:{ right. split; [intros [s [dt [H _]]]; discriminate | reflexivity]. }
  unfold _tratar_data, to_datetime_coerce.
  destruct (truthy_str (Some s)) eqn:Ht; cbn [negb].
  2:{ right. split; [|reflexivity].
      intros [s' [dt [E [Hne _]]]]. inversion E; subst s'.
      apply truthy_str_Some in Hne. congruence. }
  destruct (contem "2263" s) eqn:H3; cbn [orb].
  { right. split; [|reflexivity].
    intros [s' [dt [E [_ [_ [_ [Hn _]]]]]]]. inversion E; subst s'.
    apply contem_false in Hn. congruence. }
  destruct (contem "2262" s) eqn:H2; cbn [orb].
  { right. split; [|reflexivity].
    intros [s' [dt [E [_ [_ [Hn _]]]]]]. inversion E; subst s'.
    apply contem_false in Hn. congruence. }
  destruct (contem "2261" s) eqn:H1.
  { right. split; [|reflexivity].
    intros [s' [dt [E [_ [Hn _]]]]]. inversion E; subst s'.
    apply contem_false in Hn. congruence. }
  destruct (to_datetime s) as [dt| |] eqn:Hp.
  - destruct (Z.ltb_spec (year dt) 1990) as [Hlo|Hlo]; cbn [orb].
    { right. split; [|reflexivity].
      intros [s' [dt' [E [_ [_ [_ [_ [Hp' Hy]]]]]]]]. inversion E; subst s'.
      rewrite Hp in Hp'. inversion Hp'; subst dt'. lia. }
    destruct (Z.gtb_spec (year dt) 2030) as [Hhi|Hhi].
    { right. split; [|reflexivity].
      intros [s' [dt' [E [_ [_ [_ [_ [Hp' Hy]]]]]]]]. inversion E; subst s'.
      rewrite Hp in Hp'. inversion Hp'; subst dt'. lia. }
    left. split; [|reflexivity].
    exists s, dt. repeat split; try (apply contem_false; assumption); try lia; auto.
    now apply truthy_str_Some.
  - right. split; [|reflexivity].
    intros [s' [dt' [E [_ [_ [_ [_ [Hp' _]]]]]]]]. inversion E; subst s'.
    rewrite Hp in Hp'. discriminate.
  - right. split; [|reflexivity].
    intros [s' [dt' [E [_ [_ [_ [_ [Hp' _]]]]]]]]. inversion E; subst s'.
    rewrite Hp in Hp'. discriminate.
Qed.

(** What [_tratar_data] lets through is never the empty string. *)
Lemma tratar_data_nao_vazia (data_str : option string) (d : string) :
  _tratar_data data_str = Some d -> d <> "".
Proof.
  unfold _tratar_data. destruct data_str as [s|]; [|discriminate].
  destruct (truthy_str (Some s)) eqn:Ht; cbn [negb]; [|discriminate].
  destruct (contem "2263" s || contem "2262" s || contem "2261" s);
    [discriminate|].
  destruct (to_datetime_coerce s) as [dt|]; [|discriminate].
  destruct ((year dt <? 1990) || (year dt >? 2030)); [discriminate|].
  intros H. inversion H; subst d. now apply truthy_str_Some.
Qed.

End Datas.

(** ** The movement loop *)
Section Movimentos.

Context {bib : Biblioteca}.
Import RceSaude.

Lemma gatilho_indeferimento_contem (n : string) :
  gatilho_indeferimento n = contem "indeferimento" n.
Proof.
  unfold gatilho_indeferimento, gatilho_deferimento.
  destruct (contem "deferimento" n), (contem "indeferimento" n); reflexivity.
Qed.

(** One turn of the loop raises exactly on a dict with a [null] name. *)
Lemma passo_total (e : estado) (x : item movimento) :
  nome_utilizavel x = true -> exists e', passo e x = Ok e'.
Proof.
  destruct x as [m|]; [|intros _; now exists e].
  unfold passo, nome_minusculo. simpl.
  destruct (mov_nome m); simpl; intros H; try discriminate; eauto.
Qed.

Lemma passo_raise (e : estado) (x : item movimento) :
  nome_utilizavel x = false -> passo e x = Raise AttributeError.
Proof.
  destruct x as [m|]; [|discriminate].
  unfold passo, nome_minusculo. simpl.
  destruct (mov_nome m); simpl; intros H; try discriminate; reflexivity.
Qed.

(** What one turn does to the locals when it does not raise. *)
Lemma passo_inv (e e' : estado) (x : item movimento) :
  passo e x = Ok e' ->
  nome_utilizavel x = true
  /\ tem_tutela e' = tem_tutela e || e_tutela x
  /\ tem_acordo e' = tem_acordo e || e_acordo x
  /\ tem_deferimento e' = tem_deferimento e || defere x
  /\ tem_indeferimento e' = tem_indeferimento e || indefere x
  /\ tem_sentenca e' = tem_sentenca e || sentencia x
  /\ data_primeira_tutela e' =
     (if e_tutela x then primeira_data (data_de x) (data_primeira_tutela e)
      else data_primeira_tutela e)
  /\ data_primeiro_acordo e' =
     (if e_acordo x then primeira_data (data_de x) (data_primeiro_acordo e)
      else data_primeiro_acordo e).
Proof.
  destruct x as [m|].
  - unfold passo, nome_minusculo, e_tutela, e_acordo, defere, indefere,
      sentencia, data_de, nome_de, nome_utilizavel.
    destruct (mov_nome m) as [| |s]; simpl; intros H; try discriminate;
      inversion H; subst e'; cbn;
      rewrite gatilho_indeferimento_contem; repeat split; reflexivity.
  - simpl. intros H. inversion H; subst e'.
    rewrite !orb_false_r. repeat split; reflexivity.
Qed.

Lemma percorrer_app (e : estado) (l1 l2 : list (item movimento)) :
  percorrer e (l1 ++ l2) = (e1 <- percorrer e l1 ;; percorrer e1 l2).
Proof.
  revert e; induction l1 as [|x l1 IH]; intros e; simpl; [reflexivity|].
  destruct (passo e x) as [e1|ex]; simpl; [apply IH | reflexivity].
Qed.

Lemma percorrer_total (e : estado) (ms : list (item movimento)) :
  forallb nome_utilizavel ms = true -> exists e', percorrer e ms = Ok e'.
Proof.
  revert e; induction ms as [|x ms IH]; intros e; simpl; [eauto|].
  rewrite andb_true_iff. intros [Hx Hms].
  destruct (passo_total e x Hx) as [e1 H1]. rewrite H1. simpl. apply IH, Hms.
Qed.

Lemma percorrer_raise (e : estado) (ms : list (item movimento)) :
  forallb nome_utilizavel ms = false -> percorrer e ms = Raise AttributeError.
Proof.
  revert e; induction ms as [|x ms IH]; intros e; simpl; [discriminate|].
  destruct (nome_utilizavel x) eqn:Hx; simpl.
  - destruct (passo_total e x Hx) as [e1 H1]. rewrite H1. simpl. apply IH.
  - intros _. now rewrite (passo_raise e x Hx).
Qed.

Lemma percorrer_ok_utilizavel (e e' : estado) (ms : list (item movimento)) :
  percorrer e ms = Ok e' -> forallb nome_utilizavel ms = true.
Proof.
  intros H. destruct (forallb nome_utilizavel ms) eqn:E; [reflexivity|].
  rewrite (percorrer_raise e ms E) in H. discriminate.
Qed.

(** The five flags after the loop: each is set when it was set before or
    some movement of the list triggers it. *)
Lemma percorrer_flags (ms : list (item movimento)) :
  forall e e',
    percorrer e ms = Ok e' ->
    tem_tutela e' = tem_tutela e || existsb e_tutela ms
    /\ tem_acordo e' = tem_acordo e || existsb e_acordo ms
    /\ tem_deferimento e' = tem_deferimento e || existsb defere ms
    /\ tem_indeferimento e' = tem_indeferimento e || existsb indefere ms
    /\ tem_sentenca e' = tem_sentenca e || existsb sentencia ms.
Proof.
  induction ms as [|x ms IH]; intros e e'; simpl.
  - intros H. inversion H; subst. rewrite !orb_false_r. repeat split.
  - destruct (passo e x) as [e1|ex] eqn:H1; simpl; [|discriminate].
    intros H. destruct (IH e1 e' H) as (A & B & C & D & E).
    destruct (passo_inv _ _ _ H1) as (_ & A1 & B1 & C1 & D1 & E1 & _).
    rewrite A, B, C, D, E, A1, B1, C1, D1, E1, !orb_assoc. repeat split.
Qed.

(** The update of a first date keeps the smallest date seen. *)
Lemma primeira_data_menor (ds : list string) (r : option string) (d : string) :
  Forall (fun x => x <> "") ds -> d <> "" ->
  menor_de ds r -> menor_de (ds ++ [d]) (primeira_data (Some d) r).
Proof.
  intros Hds Hd Hr. unfold primeira_data.
  rewrite (proj2 (truthy_str_Some d) Hd). cbn [andb].
  destruct r as [a|]; simpl in Hr.
  - destruct Hr as [Ha Hmin].
    assert (Hta : truthy_str (Some a) = true).
    { apply truthy_str_Some. rewrite Forall_forall in Hds. now apply Hds. }
    rewrite Hta. cbn [negb orb anterior].
    destruct (d <? a)%string eqn:Hlt; simpl.
    + split; [apply in_or_app; right; now left|].
      intros d' Hin. apply in_app_or in Hin. destruct Hin as [Hin|[<-|[]]].
      * apply (ltb_false_trans a d d' Hlt). now apply Hmin.
      * apply ltb_irrefl.
    + split; [apply in_or_app; now left|].
      intros d' Hin. apply in_app_or in Hin. destruct Hin as [Hin|[<-|[]]].
      * now apply Hmin.
      * exact Hlt.
  - subst ds. simpl. split; [now left|].
    intros d' [<-|[]]. apply ltb_irrefl.
Qed.

Lemma primeira_data_None (r : option string) : primeira_data None r = r.
Proof. reflexivity. Qed.

(** A first date that the loop tracks with [primeira_data] over the
    movements that [sel] selects is the smallest of their treated dates. *)
Lemma percorrer_menor (proj : estado -> option string)
      (sel : item movimento -> bool) :
  (forall e x e', passo e x = Ok e' ->
                  proj e' = if sel x then primeira_data (data_de x) (proj e)
                            else proj e) ->
  forall ms e e' ds,
    percorrer e ms = Ok e' ->
    Forall (fun d => d <> "") ds ->
    menor_de ds (proj e) ->
    menor_de (ds ++ datas sel ms) (proj e')
    /\ Forall (fun d => d <> "") (ds ++ datas sel ms).
Proof.
  intros Hproj. induction ms as [|x ms IH]; intros e e' ds; simpl.
  - intros H Hds Hr. inversion H; subst. rewrite app_nil_r. now split.
  - destruct (passo e x) as [e1|ex] eqn:H1; simpl; [|discriminate].
    intros H Hds Hr. rewrite app_assoc.
    apply (IH e1 e' _ H); rewrite ?(Hproj _ _ _ H1);
      destruct (sel x); try (rewrite app_nil_r; assumption);
      destruct (data_de x) as [d|] eqn:Hd;
      try (rewrite app_nil_r, ?primeira_data_None; assumption).
    + apply Forall_app. split; [assumption|].
      constructor; [|constructor].
      destruct x as [m|]; [|discriminate]. simpl in Hd.
      now apply tratar_data_nao_vazia in Hd.
    + apply primeira_data_menor; try assumption.
      destruct x as [m|]; [|discriminate]. simpl in Hd.
      now apply tratar_data_nao_vazia in Hd.
Qed.

(** The two first dates after the whole loop. *)
Lemma percorrer_primeiras_datas (ms : list (item movimento)) (e' : estado) :
  percorrer estado_inicial ms = Ok e' ->
  menor_de (datas e_tutela ms) (data_primeira_tutela e')
  /\ menor_de (datas e_acordo ms) (data_primeiro_acordo e').
Proof.
  intros H. split.
  - apply (percorrer_menor data_primeira_tutela e_tutela) with (ds := []) in H.
    + apply H.
    + intros e x e1 H1. apply passo_inv in H1. apply H1.
    + constructor.
    + reflexivity.
  - apply (percorrer_menor data_primeiro_acordo e_acordo) with (ds := []) in H.
    + apply H.
    + intros e x e1 H1. apply passo_inv in H1. apply H1.
    + constructor.
    + reflexivity.
Qed.

End Movimentos.

(** ** The classification of one hit *)
Section Classificacao.

Context {bib : Biblioteca}.
Import RceSaude.

(** What a classification that returns has gone through. *)
Lemma classificar_inv (h : hit) (p : processo) :
  classificar h = Ok p ->
  bem_formado h = true
  /\ percorrer estado_inicial (movimentos_de h) = Ok (flags p)
  /\ tutela_e_acordo p = tem_tutela (flags p) && tem_acordo (flags p)
  /\ dias_tutela_acordo p =
     dias_entre (data_primeira_tutela (flags p)) (data_primeiro_acordo (flags p)).
Proof.
  unfold classificar, bem_formado, movimentos_de, source_de.
  destruct (source_ h) as [| |f]; simpl; try discriminate.
  unfold sub_dict, lista.
  destruct (classe f) as [| |c]; simpl; try discriminate;
    destruct (orgaoJulgador f) as [| |o]; simpl; try discriminate;
    destruct (assuntos f) as [| |la]; simpl; try discriminate;
    try destruct (percorrer_assuntos la) as [codigos nomes];
    destruct (movimentos f) as [| |ms]; simpl; try discriminate;
    try (intros H; inversion H; subst p; simpl; repeat split; reflexivity);
    destruct (percorrer estado_inicial ms) as [e|ex] eqn:Hp; simpl;
    try discriminate;
    intros H; inversion H; subst p; simpl;
    (split; [exact (percorrer_ok_utilizavel _ _ _ Hp)|]); repeat split.
Qed.

(** Classification returns on every well-formed hit. *)
Lemma classificar_total (h : hit) :
  bem_formado h = true -> exists p, classificar h = Ok p.
Proof.
  unfold classificar, bem_formado, movimentos_de, source_de.
  destruct (source_ h) as [| |f]; simpl; try discriminate.
  unfold sub_dict, lista.
  destruct (classe f) as [| |c]; simpl; try discriminate;
    destruct (orgaoJulgador f) as [| |o]; simpl; try discriminate;
    destruct (assuntos f) as [| |la]; simpl; try discriminate;
    try destruct (percorrer_assuntos la) as [codigos nomes];
    destruct (movimentos f) as [| |ms]; simpl; try discriminate;
    intros H; try (eexists; reflexivity);
    destruct (percorrer_total estado_inicial ms H) as [e He];
    rewrite He; simpl; eexists; reflexivity.
Qed.

(** On any other hit it raises. *)
Lemma classificar_raise (h : hit) :
  bem_formado h = false -> exists ex, classificar h = Raise ex.
Proof.
  intros H. destruct (classificar h) as [p|ex] eqn:E; [|now exists ex].
  apply classificar_inv in E. destruct E as [E _]. congruence.
Qed.

(** The number of days between two treated dates is there exactly when
    both are non-empty strings that parse to timestamps which can be
    subtracted: both with a time zone or both without. *)
Lemma dias_entre_spec (inicio fim : option string) (n : Z) :
  dias_entre inicio fim = Some n <->
  exists i f ti tf,
    inicio = Some i /\ fim = Some f /\ i <> "" /\ f <> ""
    /\ to_datetime i = Instante ti /\ to_datetime f = Instante tf
    /\ tz_aware tf = tz_aware ti
    /\ n = (value tf - value ti) / ns_por_dia.
Proof.
  unfold dias_entre, to_datetime_raise, dias. split.
  - destruct inicio as [i|], fim as [f|]; try discriminate.
    destruct (truthy_str (Some i)) eqn:Hi; [|discriminate].
    destruct (truthy_str (Some f)) eqn:Hf; [|discriminate].
    cbn [andb].
    destruct (to_datetime i) as [ti| |] eqn:Ei; simpl; try discriminate;
      destruct (to_datetime f) as [tf| |] eqn:Ef; simpl; try discriminate.
    destruct (Bool.eqb (tz_aware tf) (tz_aware ti)) eqn:Etz; simpl;
      [|discriminate].
    intros H. inversion H; subst n.
    exists i, f, ti, tf.
    repeat split; try assumption; try (apply truthy_str_Some; assumption).
    now apply Bool.eqb_prop.
  - intros (i & f & ti & tf & -> & -> & Hi & Hf & Ei & Ef & Etz & ->).
    rewrite (proj2 (truthy_str_Some i) Hi), (proj2 (truthy_str_Some f) Hf).
    cbn [andb]. rewrite Ei, Ef. simpl. rewrite Etz, Bool.eqb_reflx. reflexivity.
Qed.

End Classificacao.

(** ** The claims on the classifier *)
Section Afirmacoes.

Context {bib : Biblioteca}.
Import RceSaude.

Lemma datas_nao_vazias (sel : item movimento -> bool) (ms : list (item movimento)) :
  Forall (fun d => d <> "") (datas sel ms).
Proof.
  induction ms as [|x ms IH]; simpl; [constructor|].
  apply Forall_app. split; [|exact IH].
  destruct (sel x); [|constructor].
  destruct (data_de x) as [d|] eqn:Hd; [|constructor].
  constructor; [|constructor].
  destruct x as [m|]; [|discriminate]. simpl in Hd.
  now apply tratar_data_nao_vazia in Hd.
Qed.

Lemma menor_de_nao_vazia (sel : item movimento -> bool)
      (ms : list (item movimento)) (d : string) :
  menor_de (datas sel ms) (Some d) -> d <> "".
Proof.
  intros [Hin _]. pose proof (datas_nao_vazias sel ms) as H.
  rewrite Forall_forall in H. now apply H.
Qed.

(** C2, at the failing inputs: a movement whose name is [null] makes the
    loop raise, whatever the locals hold; so does the classification of
    a record holding it, and of a record whose class is [null]; and the
    collection of a response raises as a whole when one of its records
    does, also after a record that classifies. *)
Theorem classificar_levanta :
  (forall e, passo e Exemplos.nome_nulo = Raise AttributeError)
  /\ classificar (Exemplos.hit_de [Exemplos.nome_nulo]) = Raise AttributeError
  /\ classificar Exemplos.hit_classe_nula = Raise AttributeError
  /\ coletar_processos_detalhados
       (Exemplos.resposta_de [Exemplos.hit_de [];
                              Exemplos.hit_de [Exemplos.nome_nulo]])
     = Raise AttributeError.
Proof.
  repeat split.
Qed.

(** C4: on every hit that classifies, the grant flag is set exactly when
    some movement's lowered name contains "deferimento" and does not
    contain "indeferimento", and the denial flag exactly when some
    movement's lowered name contains "indeferimento"; the two are
    decided movement by movement, independently. *)
Theorem deferimento_indeferimento (h : hit) :
  bem_formado h = true ->
  exists p,
    classificar h = Ok p
    /\ tem_deferimento (flags p) = existsb defere (movimentos_de h)
    /\ tem_indeferimento (flags p) = existsb indefere (movimentos_de h).
Proof.
  intros Hbf. destruct (classificar_total h Hbf) as [p Hp].
  exists p. split; [exact Hp|].
  destruct (classificar_inv h p Hp) as (_ & Hloop & _).
  destruct (percorrer_flags _ _ _ Hloop) as (_ & _ & Hd & Hi & _).
  split; assumption.
Qed.

(** C5: on every hit that classifies and has a movement with a relief
    code, the relief flag is set, the first relief date is the smallest
    treated date of the relief-coded movements (none when no such date
    survives the treatment), and the first settlement date is the
    smallest treated date of the movements whose name has a settlement
    keyword. *)
Theorem primeira_tutela_menor_data (h : hit) :
  bem_formado h = true ->
  existsb e_tutela (movimentos_de h) = true ->
  exists p,
    classificar h = Ok p
    /\ tem_tutela (flags p) = true
    /\ menor_de (datas e_tutela (movimentos_de h)) (data_primeira_tutela (flags p))
    /\ menor_de (datas e_acordo (movimentos_de h)) (data_primeiro_acordo (flags p)).
Proof.
  intros Hbf Hex. destruct (classificar_total h Hbf) as [p Hp].
  exists p. split; [exact Hp|].
  destruct (classificar_inv h p Hp) as (_ & Hloop & _).
  destruct (percorrer_flags _ _ _ Hloop) as (Ht & _).
  destruct (percorrer_primeiras_datas _ _ Hloop) as (Hdt & Hda).
  rewrite Ht, Hex. repeat split; assumption.
Qed.

(** A relief-coded movement whose date does not survive the treatment
    sets the flag and leaves the first relief date as it was. *)
Lemma tutela_sem_data (e e' : estado) (x : item movimento) :
  passo e x = Ok e' -> e_tutela x = true -> data_de x = None ->
  tem_tutela e' = true /\ data_primeira_tutela e' = data_primeira_tutela e.
Proof.
  intros H Ht Hd. destruct (passo_inv _ _ _ H) as (_ & A & _ & _ & _ & _ & B & _).
  rewrite A, B, Ht, Hd, orb_true_r. split; reflexivity.
Qed.

(** C6, as amended: on every hit that classifies, the number of days
    from relief to settlement is there exactly when both first dates are
    there, both parse, and the two timestamps can be subtracted (both
    carry a time zone or neither does); it is then the whole number of
    days (rounded down) from the relief timestamp to the settlement
    timestamp, negative when the settlement date is the earlier one. *)
Theorem dias_tutela_acordo_spec (h : hit) :
  bem_formado h = true ->
  exists p,
    classificar h = Ok p
    /\ forall n,
        dias_tutela_acordo p = Some n <->
        exists tutela acordo dt_tutela dt_acordo,
          data_primeira_tutela (flags p) = Some tutela
          /\ data_primeiro_acordo (flags p) = Some acordo
          /\ to_datetime tutela = Instante dt_tutela
          /\ to_datetime acordo = Instante dt_acordo
          /\ tz_aware dt_acordo = tz_aware dt_tutela
          /\ n = (value dt_acordo - value dt_tutela) / ns_por_dia.
Proof.
  intros Hbf. destruct (classificar_total h Hbf) as [p Hp].
  exists p. split; [exact Hp|]. intros n.
  destruct (classificar_inv h p Hp) as (_ & Hloop & _ & Hdias).
  destruct (percorrer_primeiras_datas _ _ Hloop) as (Hdt & Hda).
  rewrite Hdias, dias_entre_spec. split.
  - intros (i & f & ti & tf & Hi & Hf & _ & _ & Ei & Ef & Etz & Hn).
    exists i, f, ti, tf. repeat split; assumption.
  - intros (i & f & ti & tf & Hi & Hf & Ei & Ef & Etz & Hn).
    exists i, f, ti, tf. rewrite Hi in Hdt. rewrite Hf in Hda.
    repeat split; try assumption.
    + exact (menor_de_nao_vazia _ _ _ Hdt).
    + exact (menor_de_nao_vazia _ _ _ Hda).
Qed.

Lemma bem_formado_anexar (f : fonte) (ms : list (item movimento))
      (x : item movimento) :
  movimentos f = Valor ms ->
  bem_formado {| source_ := Valor (com_movimentos f (ms ++ [x])) |}
  = bem_formado {| source_ := Valor f |} && nome_utilizavel x.
Proof.
  intros Hm. unfold bem_formado, movimentos_de. simpl. rewrite Hm.
  rewrite forallb_app. simpl. rewrite andb_true_r.
  destruct (classe f), (orgaoJulgador f), (assuntos f); reflexivity.
Qed.

(** One more movement at the end of the list is one more turn of the
    loop from the locals the shorter list leaves. *)
Lemma classificar_anexar (f : fonte) (ms : list (item movimento))
      (x : item movimento) (p p' : processo) :
  movimentos f = Valor ms ->
  classificar {| source_ := Valor f |} = Ok p ->
  classificar {| source_ := Valor (com_movimentos f (ms ++ [x])) |} = Ok p' ->
  passo (flags p) x = Ok (flags p') /\ flags_le p p'.
Proof.
  intros Hm Hp Hp'.
  destruct (classificar_inv _ _ Hp) as (_ & Hloop & Hta & _).
  destruct (classificar_inv _ _ Hp') as (_ & Hloop' & Hta' & _).
  unfold movimentos_de in Hloop, Hloop'. simpl in Hloop, Hloop'.
  rewrite Hm in Hloop. rewrite percorrer_app, Hloop in Hloop'.
  simpl in Hloop'.
  destruct (passo (flags p) x) as [e1|ex] eqn:H1; simpl in Hloop';
    [|discriminate].
  inversion Hloop' as [He1]. rewrite He1 in H1. split; [reflexivity|].
  destruct (passo_inv _ _ _ H1) as (_ & A & B & C & D & E & _).
  unfold flags_le. rewrite Hta, Hta', A, B, C, D, E.
  repeat split; try (intros H; rewrite H; reflexivity).
  intros H. apply andb_true_iff in H. destruct H as [H H'].
  rewrite H, H'. reflexivity.
Qed.

(** C8: when a record classifies, the record with one more movement at
    the end of its list classifies too unless that movement has a [null]
    name, and whenever it classifies every flag that was set is still
    set. *)
Theorem flags_monotonas (f : fonte) (ms : list (item movimento))
        (x : item movimento) (p : processo) :
  movimentos f = Valor ms ->
  classificar {| source_ := Valor f |} = Ok p ->
  (nome_utilizavel x = true ->
   exists p',
     classificar {| source_ := Valor (com_movimentos f (ms ++ [x])) |} = Ok p'
     /\ flags_le p p')
  /\ (forall p',
         classificar {| source_ := Valor (com_movimentos f (ms ++ [x])) |} = Ok p' ->
         flags_le p p').
Proof.
  intros Hm Hp. split.
  - intros Hx.
    destruct (classificar_inv _ _ Hp) as (Hbf & _).
    destruct (classificar_total
                {| source_ := Valor (com_movimentos f (ms ++ [x])) |}) as [p' Hp'].
    { rewrite (bem_formado_anexar f ms x Hm), Hbf, Hx. reflexivity. }
    exists p'. split; [exact Hp'|].
    exact (proj2 (classificar_anexar f ms x p p' Hm Hp Hp')).
  - intros p' Hp'. exact (proj2 (classificar_anexar f ms x p p' Hm Hp Hp')).
Qed.

End Afirmacoes.

(** ** The claims at the sample records *)

Import RceSaude.

(** A movement named "Indeferimento do pedido de tutela", alone, sets the
    denial flag and not the grant flag. *)
Lemma deferimento_indeferimento_witness :
  exists p,
    classificar (bib := Iso.biblioteca) (Exemplos.hit_de Exemplos.so_indeferimento) = Ok p
    /\ tem_deferimento (flags p) = false
    /\ tem_indeferimento (flags p) = true.
Proof.
  destruct (deferimento_indeferimento (bib := Iso.biblioteca)
              (Exemplos.hit_de Exemplos.so_indeferimento) eq_refl)
    as (p & Hp & Hd & Hi).
  exists p. split; [exact Hp|]. split.
  - rewrite Hd. reflexivity.
  - rewrite Hi. reflexivity.
Defined.

(** Two different movements can set both flags of one record. *)
Example deferimento_e_indeferimento_juntos :
  exists p,
    classificar (bib := Iso.biblioteca)
                (Exemplos.hit_de Exemplos.deferimento_e_indeferimento) = Ok p
    /\ tem_deferimento (flags p) = true
    /\ tem_indeferimento (flags p) = true.
Proof.
  eexists. split; [vm_compute; reflexivity|]. split; reflexivity.
Qed.

(** Of three relief movements dated 10 February, a sentinel year and 10
    January, the first relief date is 10 January. *)
Lemma primeira_tutela_menor_data_witness :
  exists p,
    classificar (bib := Iso.biblioteca) (Exemplos.hit_de Exemplos.tres_tutelas) = Ok p
    /\ tem_tutela (flags p) = true
    /\ data_primeira_tutela (flags p) = Some "2024-01-10"
    /\ data_primeiro_acordo (flags p) = Some "2024-03-01".
Proof.
  destruct (primeira_tutela_menor_data (bib := Iso.biblioteca)
              (Exemplos.hit_de Exemplos.tres_tutelas) eq_refl eq_refl)
    as (p & Hp & Ht & Hdt & Hda).
  exists p. split; [exact Hp|]. split; [exact Ht|]. split.
  - apply (menor_de_unico _ _ _ Hdt). vm_compute. split; [right; now left|].
    intros d' [<-|[<-|[]]]; reflexivity.
  - apply (menor_de_unico _ _ _ Hda). vm_compute. split; [now left|].
    intros d' [<-|[]]; reflexivity.
Defined.

(** A settlement dated 51 days before the relief gives -51 days. *)
Lemma dias_tutela_acordo_spec_witness :
  exists p,
    classificar (bib := Iso.biblioteca)
                (Exemplos.hit_de Exemplos.acordo_antes_da_tutela) = Ok p
    /\ dias_tutela_acordo p = Some (-51).
Proof.
  destruct (dias_tutela_acordo_spec (bib := Iso.biblioteca)
              (Exemplos.hit_de Exemplos.acordo_antes_da_tutela) eq_refl)
    as (p & Hp & Hn).
  exists p. split; [exact Hp|]. apply Hn.
  vm_compute in Hp. injection Hp as <-.
  exists "2024-03-01"%string, "2024-01-10"%string,
    {| year := 2024; value := 1709251200000000000; tz_aware := false |},
    {| year := 2024; value := 1704844800000000000; tz_aware := false |}.
  repeat split.
Defined.

(** C6, refuted as stated: the relief date carries a time zone and the
    settlement date does not; both first dates are there and both parse,
    and yet there is no number of days, because their difference raises. *)
Lemma dias_tutela_acordo_fusos_mistos :
  exists p tutela acordo dt_tutela dt_acordo,
    classificar (bib := Iso.biblioteca) (Exemplos.hit_de Exemplos.fusos_mistos) = Ok p
    /\ data_primeira_tutela (flags p) = Some tutela
    /\ data_primeiro_acordo (flags p) = Some acordo
    /\ Iso.iso_to_datetime tutela = Instante dt_tutela
    /\ Iso.iso_to_datetime acordo = Instante dt_acordo
    /\ dias_tutela_acordo p = None.
Proof.
  eexists. exists "2024-01-10T00:00:00.000Z"%string, "2024-03-01"%string.
  eexists. eexists.
  split; [vm_compute; reflexivity|].
  repeat split; vm_compute; reflexivity.
Qed.

(** The record of the specification's example, 51 days from relief to
    settlement. *)
Example dias_tutela_acordo_51 :
  exists p,
    classificar (bib := Iso.biblioteca)
                (Exemplos.hit_de Exemplos.tutela_depois_acordo) = Ok p
    /\ tem_tutela (flags p) = true /\ tem_acordo (flags p) = true
    /\ tutela_e_acordo p = true
    /\ data_primeira_tutela (flags p) = Some "2024-01-10"%string
    /\ data_primeiro_acordo (flags p) = Some "2024-03-01"%string
    /\ dias_tutela_acordo p = Some 51.
Proof.
  eexists. split; [vm_compute; reflexivity|]. repeat split.
Qed.

(** Appending a grant movement to the record with the denial movement
    keeps the denial flag and sets the grant flag. *)
Lemma flags_monotonas_witness :
  exists p p',
    classificar (bib := Iso.biblioteca) (Exemplos.hit_de Exemplos.so_indeferimento) = Ok p
    /\ classificar (bib := Iso.biblioteca)
                   (Exemplos.hit_de Exemplos.deferimento_e_indeferimento) = Ok p'
    /\ flags_le p p'.
Proof.
  destruct (classificar_total (bib := Iso.biblioteca)
              (Exemplos.hit_de Exemplos.so_indeferimento) eq_refl) as [p Hp].
  destruct (flags_monotonas (bib := Iso.biblioteca)
              (Exemplos.fonte_de Exemplos.so_indeferimento)
              Exemplos.so_indeferimento
              (Exemplos.mov 11011 (Valor "Deferimento da liminar") "2024-02-20")
              p eq_refl Hp) as [Hex _].
  destruct (Hex eq_refl) as (p' & Hp' & Hle).
  exists p, p'. split; [exact Hp|]. split; [exact Hp'|exact Hle].
Defined.

(** * Further properties of the scripts *)

(** ** The builders, filter by filter *)

Lemma n_filtros_zero (c a m : option Z) (di df : option string) :
  n_filtros c a m di df = 0%nat <->
  truthy_int c = false /\ truthy_int a = false /\ truthy_int m = false
  /\ truthy_str di = false /\ truthy_str df = false.
Proof.
  unfold n_filtros.
  destruct (truthy_int c), (truthy_int a), (truthy_int m),
    (truthy_str di), (truthy_str df); simpl; split;
    try discriminate; try tauto; intros H; decompose [and] H; discriminate.
Qed.

Lemma clausulas_length (c a m : option Z) (di df : option string) :
  List.length (DataJud.clausulas c a m di df) = n_filtros c a m di df
  /\ List.length (DataJud2.filtros c a m di df) = n_filtros c a m di df.
Proof.
  unfold DataJud.clausulas, DataJud2.filtros, n_filtros.
  destruct c as [c|], a as [a|], m as [m|]; simpl;
    repeat match goal with
           | |- context [negb (?x =? 0)] => destruct (negb (x =? 0))
           end;
    destruct (truthy_str di || truthy_str df); split; reflexivity.
Qed.

(** X1: in both builders the query is the match-all object when no filter
    is truthy, and otherwise a boolean-must wrapper around exactly one
    clause for each truthy code and one for the dates when either date is
    a non-empty string. *)
Theorem construir_query_clausulas (c a m : option Z) (di df : option string)
        (tamanho : Z) :
  exists cl1 cl2,
    List.length cl1 = n_filtros c a m di df
    /\ List.length cl2 = n_filtros c a m di df
    /\ campo_json "query" (DataJud.construir_query c a m di df tamanho)
       = Some (if (n_filtros c a m di df =? 0)%nat then match_all else bool_must cl1)
    /\ campo_json "query" (DataJud2.construir_query c a m di df tamanho)
       = Some (if (n_filtros c a m di df =? 0)%nat then match_all else bool_must cl2).
Proof.
  exists (DataJud.clausulas c a m di df), (DataJud2.filtros c a m di df).
  destruct (clausulas_length c a m di df) as [H1 H2].
  split; [exact H1|]. split; [exact H2|].
  unfold DataJud.construir_query, DataJud2.construir_query. cbn.
  rewrite <- H1 at 1. rewrite <- H2 at 1.
  destruct (DataJud.clausulas c a m di df), (DataJud2.filtros c a m di df);
    split; reflexivity.
Qed.

(** The range dict has the key [gte] exactly for a non-empty start date
    and the key [lte] exactly for a non-empty end date. *)
Lemma date_range_chaves (di df : option string) :
  campo_json "gte" (date_range di df)
  = (if truthy_str di then option_map JStr di else None)
  /\ campo_json "lte" (date_range di df)
     = (if truthy_str df then option_map JStr df else None).
Proof.
  unfold date_range.
  destruct di as [i|], df as [f|]; cbn;
    repeat match goal with
           | |- context [negb (?x =? "")%string] =>
               destruct (negb (x =? "")%string)
           end; split; reflexivity.
Qed.

Lemma last_app_um {A : Type} (l : list A) (x d : A) :
  last (l ++ [x]) d = x.
Proof.
  induction l as [|y l IH]; [reflexivity|].
  simpl. destruct (l ++ [x])%list eqn:E; [destruct l; discriminate|]. exact IH.
Qed.

(** The last clause of a request built around a list of clauses that
    ends in [d]. *)
Lemma ultima_clausula_final (size : json) (antes : list json) (d : json) :
  ultima_clausula
    (JDict [("size", size);
            ("query",
             match (antes ++ [d])%list with
             | [] => match_all
             | _ => JDict [("bool", JDict [("must", JList (antes ++ [d]))])]
             end)])
  = Some d.
Proof.
  unfold ultima_clausula, must_de.
  destruct (antes ++ [d])%list as [|x l] eqn:E; [destruct antes; discriminate|].
  change (last (map Some (x :: l)) None = Some d).
  rewrite <- E, map_app. exact (last_app_um _ _ _).
Qed.

(** X2: when a start date or an end date is given, the last clause of the
    request is the date filter: in [jurimetria_datajud.py] a range on
    [dataAjuizamento], in [jurimetria_datajud_2.py] a choice of ranges on
    [dataAjuizamento], [dataHoraUltimaAtualizacao] and [@timestamp] that
    all carry the same bounds; the bounds have the key [gte] exactly for
    a non-empty start date and the key [lte] exactly for a non-empty end
    date, each with the caller's string unchanged. *)
Theorem construir_query_intervalo (c a m : option Z) (di df : option string)
        (tamanho : Z) :
  truthy_str di || truthy_str df = true ->
  exists dr c1 c2 a1 a2 a3,
    ultima_clausula (DataJud.construir_query c a m di df tamanho) = Some c1
    /\ intervalo "dataAjuizamento" c1 = Some dr
    /\ ultima_clausula (DataJud2.construir_query c a m di df tamanho) = Some c2
    /\ alternativas c2 = Some [a1; a2; a3]
    /\ intervalo "dataAjuizamento" a1 = Some dr
    /\ intervalo "dataHoraUltimaAtualizacao" a2 = Some dr
    /\ intervalo "@timestamp" a3 = Some dr
    /\ campo_json "gte" dr = (if truthy_str di then option_map JStr di else None)
    /\ campo_json "lte" dr = (if truthy_str df then option_map JStr df else None).
Proof.
  intros H.
  exists (date_range di df), (DataJud.filtro_datas di df),
    (DataJud2.filtro_datas di df).
  do 3 eexists.
  assert (U1 : ultima_clausula (DataJud.construir_query c a m di df tamanho)
               = Some (DataJud.filtro_datas di df)).
  { unfold DataJud.construir_query, DataJud.clausulas. cbv zeta.
    rewrite H, !app_assoc. apply ultima_clausula_final. }
  assert (U2 : ultima_clausula (DataJud2.construir_query c a m di df tamanho)
               = Some (DataJud2.filtro_datas di df)).
  { unfold DataJud2.construir_query, DataJud2.filtros. cbv zeta.
    rewrite H. cbn [app]. rewrite !app_assoc. apply ultima_clausula_final. }
  destruct (date_range_chaves di df) as [G L].
  repeat split; try assumption; reflexivity.
Qed.

Lemma construir_query_intervalo_witness :
  exists dr c1 c2 a1 a2 a3,
    ultima_clausula
      (DataJud.construir_query (Some 7) None None
                               (Some "2024-01-01T00:00:00.000Z") None 10) = Some c1
    /\ intervalo "dataAjuizamento" c1 = Some dr
    /\ ultima_clausula
         (DataJud2.construir_query (Some 7) None None
                                   (Some "2024-01-01T00:00:00.000Z") None 10) = Some c2
    /\ alternativas c2 = Some [a1; a2; a3]
    /\ intervalo "dataAjuizamento" a1 = Some dr
    /\ intervalo "dataHoraUltimaAtualizacao" a2 = Some dr
    /\ intervalo "@timestamp" a3 = Some dr
    /\ campo_json "gte" dr = Some (JStr "2024-01-01T00:00:00.000Z")
    /\ campo_json "lte" dr = None.
Proof.
  apply (construir_query_intervalo (Some 7) None None
           (Some "2024-01-01T00:00:00.000Z") None 10).
  reflexivity.
Defined.

(** X3: for a size of at most 10, the simple test query is the request
    that the full builder makes without filters. *)
Theorem construir_query_simples_sem_filtros (tamanho : Z) :
  tamanho <= 10 ->
  DataJud2.construir_query_simples tamanho
  = DataJud2.construir_query None None None None None tamanho.
Proof.
  intros H. unfold DataJud2.construir_query_simples, DataJud2.construir_query.
  cbn. rewrite !Z.min_l by lia. reflexivity.
Qed.

Lemma construir_query_simples_sem_filtros_witness :
  DataJud2.construir_query_simples 5
  = DataJud2.construir_query None None None None None 5.
Proof.
  apply construir_query_simples_sem_filtros. lia.
Defined.

(** ** Loops that can raise *)

Lemma para_cada_Forall2 {A B : Type} (corpo : A -> py B) (l : list A) (ys : list B) :
  para_cada corpo l = Ok ys <-> Forall2 (fun x y => corpo x = Ok y) l ys.
Proof.
  revert ys; induction l as [|x l IH]; intros ys; simpl.
  - split.
    + intros H. inversion H. constructor.
    + intros H. inversion H. reflexivity.
  - split.
    + destruct (corpo x) as [y|e] eqn:Hx; simpl; [|discriminate].
      destruct (para_cada corpo l) as [ys'|e] eqn:Hl; simpl; [|discriminate].
      intros H. inversion H; subst ys. constructor; [exact Hx|]. now apply IH.
    + intros H. inversion H as [|x' y l' ys' Hx Hl]; subst.
      rewrite Hx. simpl. apply IH in Hl. rewrite Hl. reflexivity.
Qed.

Lemma para_cada_ok {A B : Type} (corpo : A -> py B) (l : list A) :
  (exists ys, para_cada corpo l = Ok ys) <-> Forall (fun x => exists y, corpo x = Ok y) l.
Proof.
  induction l as [|x l IH]; simpl.
  - split; [constructor | now exists []].
  - split.
    + intros [ys H].
      destruct (corpo x) as [y|e] eqn:Hx; simpl in H; [|discriminate].
      destruct (para_cada corpo l) as [ys'|e] eqn:Hl; simpl in H; [|discriminate].
      constructor; [now exists y|]. apply IH. now exists ys'.
    + intros H. inversion H as [|x' l' [y Hx] Hl]; subst.
      apply IH in Hl. destruct Hl as [ys Hys].
      exists (y :: ys). rewrite Hx. simpl. rewrite Hys. reflexivity.
Qed.

(** ** [extrair_informacoes] *)

(** X4: when [extrair_informacoes] returns, it returns nothing for a
    response without hits and otherwise one entry for each hit, in the
    order of the hits, each the extraction of its hit. *)
Theorem extrair_informacoes_forma (r : option resposta) (l : list DataJud.info) :
  DataJud.extrair_informacoes r = Ok l <->
  (sem_hits r = true /\ l = [])
  \/ (sem_hits r = false
      /\ exists hs, lista_de_hits r = Ok hs
                    /\ Forall2 (fun h i => DataJud.extrair_hit h = Ok i) hs l).
Proof.
  unfold DataJud.extrair_informacoes.
  destruct (sem_hits r).
  - split.
    + intros H. inversion H. now left.
    + intros [[_ ->]|[H _]]; [reflexivity | discriminate].
  - destruct (lista_de_hits r) as [hs|e]; simpl.
    + rewrite para_cada_Forall2. split.
      * intros H. right. split; [reflexivity|]. now exists hs.
      * intros [[H _]|[_ [hs' [E H]]]]; [discriminate|]. now inversion E.
    + split; [discriminate|].
      intros [[H _]|[_ [hs' [E _]]]]; discriminate.
Qed.

Lemma ltb_le_lt (a b c : string) :
  (b <? a)%string = false -> (b <? c)%string = true -> (a <? c)%string = true.
Proof.
  intros Hba Hbc. destruct (a <? b)%string eqn:Hab.
  - exact (ltb_trans _ _ _ Hab Hbc).
  - rewrite (ltb_total a b Hab Hba). exact Hbc.
Qed.

Lemma chave_data_Ok (x : item movimento) (k : option string) :
  DataJud.chave_data x = Ok k -> exists m, x = Dict m /\ k = chave_de x.
Proof.
  destruct x as [m|]; simpl; [|discriminate].
  intros H. inversion H. now exists m.
Qed.

(** What [max] has found after its first element. *)
Lemma max_resto_spec (l : list (item movimento)) :
  forall mb kb u,
    DataJud.max_resto (Dict mb) (Some kb) l = Ok u ->
    (u = Dict mb
     /\ forall x k', In x l -> chave_de x = Some k' -> (kb <? k')%string = false)
    \/ (exists l1 m k l2,
           l = (l1 ++ Dict m :: l2)%list /\ u = Dict m /\ chave_de (Dict m) = Some k
           /\ (kb <? k)%string = true
           /\ (forall x k', In x l1 -> chave_de x = Some k' -> (k' <? k)%string = true)
           /\ (forall x k', In x l2 -> chave_de x = Some k' -> (k <? k')%string = false)).
Proof.
  induction l as [|x l IH]; intros mb kb u; simpl.
  - intros H. inversion H. left. split; [reflexivity|]. intros x k' [].
  - destruct (DataJud.chave_data x) as [k|e] eqn:Hk; simpl; [|discriminate].
    destruct (chave_data_Ok x k Hk) as [mx [-> Hkx]]. subst k.
    destruct (chave_de (Dict mx)) as [a|] eqn:Ha; [|discriminate].
    destruct (kb <? a)%string eqn:Hlt; intros H; apply IH in H.
    + right. destruct H as [[-> Hall]|(l1 & m & k & l2 & -> & -> & Hk' & Hak & H1 & H2)].
      * exists [], mx, a, l. repeat split; try assumption. intros x k' [].
      * exists (Dict mx :: l1), m, k, l2. repeat split; try assumption.
        -- exact (ltb_trans _ _ _ Hlt Hak).
        -- intros x k' [<-|Hin] Hx.
           ++ rewrite Ha in Hx. inversion Hx; subst k'. exact Hak.
           ++ now apply (H1 x).
    + destruct H as [[-> Hall]|(l1 & m & k & l2 & -> & -> & Hk' & Hbk & H1 & H2)].
      * left. split; [reflexivity|]. intros x k' [<-|Hin] Hx.
        -- rewrite Ha in Hx. inversion Hx; subst k'. exact Hlt.
        -- now apply (Hall x).
      * right. exists (Dict mx :: l1), m, k, l2. repeat split; try assumption.
        intros x k' [<-|Hin] Hx.
        -- rewrite Ha in Hx. inversion Hx; subst k'.
           exact (ltb_le_lt _ _ _ Hlt Hbk).
        -- now apply (H1 x).
Qed.

Lemma max_resto_None (l : list (item movimento)) (melhor : item movimento) :
  l <> [] -> forall u, DataJud.max_resto melhor None l <> Ok u.
Proof.
  destruct l as [|x l]; [congruence|]. intros _ u. simpl.
  destruct (DataJud.chave_data x) as [k|e]; simpl; [|discriminate].
  destruct k; discriminate.
Qed.

Lemma max_resto_ok (l : list (item movimento)) :
  forall mb kb,
    (exists u, DataJud.max_resto (Dict mb) (Some kb) l = Ok u) <->
    forallb (fun x => match chave_de x with
                      | Some _ => true
                      | None => false
                      end) l = true.
Proof.
  induction l as [|x l IH]; intros mb kb; simpl.
  - split; [reflexivity | intros _; now exists (Dict mb)].
  - destruct x as [mx|]; simpl.
    + destruct (get (mov_dataHora mx) "") as [a|]; simpl.
      * destruct (kb <? a)%string; apply IH.
      * split; [intros [u H]; discriminate | discriminate].
    + split; [intros [u H]; discriminate | discriminate].
Qed.

(** The last movement is none for a missing, [null] or empty list and is
    found for a single dict; for a longer list the search returns exactly
    when every entry is a dict with a date that is not [null]. *)
Lemma ultimo_movimento_ok (ms : option (list (item movimento))) :
  (exists r, DataJud.ultimo_movimento ms = Ok r) <-> ultimo_ok ms = true.
Proof.
  destruct ms as [[|x l]|]; simpl; try (split; [reflexivity | intros _; eauto]).
  destruct x as [m|]; simpl.
  2:{ destruct l; simpl; split; try discriminate; intros [r H]; discriminate. }
  destruct l as [|y l].
  - simpl. split; [reflexivity | intros _; eauto].
  - cbn [forallb chave_de].
    destruct (get (mov_dataHora m) "") as [kb|] eqn:Hk.
    + cbn [andb].
      rewrite <- (max_resto_ok (y :: l) m kb). split.
      * intros [r H].
        destruct (DataJud.max_resto (Dict m) (Some kb) (y :: l)) as [u|e];
          [now exists u | discriminate].
      * intros [u H]. rewrite H. simpl.
        destruct (max_resto_spec _ _ _ _ H) as [[-> _]|(l1 & m' & k & l2 & _ & -> & _)];
          eauto.
    + cbn [andb]. split; [|discriminate].
      intros [r H].
      destruct (DataJud.max_resto (Dict m) None (y :: l)) as [u|e] eqn:E;
        [|discriminate].
      exfalso. revert E. apply max_resto_None. discriminate.
Qed.

(** X5: the last movement that is reported is the first movement of the
    list with the greatest date in Python's string order: every movement
    before it has a smaller date and no movement after it has a greater
    one; name and date are reported with ["N/A"] for a missing key. *)
Theorem ultimo_movimento_maximo (ms : list (item movimento))
        (n d : option string) :
  DataJud.ultimo_movimento (Some ms) = Ok (Some (n, d)) ->
  exists l1 m l2,
    ms = (l1 ++ Dict m :: l2)%list
    /\ n = get (mov_nome m) "N/A"
    /\ d = get (mov_dataHora m) "N/A"
    /\ (forall x k k', In x l1 -> chave_de x = Some k' -> chave_de (Dict m) = Some k ->
                       (k' <? k)%string = true)
    /\ (forall x k k', In x l2 -> chave_de x = Some k' -> chave_de (Dict m) = Some k ->
                       (k <? k')%string = false).
Proof.
  destruct ms as [|x l]; simpl; [discriminate|].
  destruct x as [m|]; simpl; [|discriminate].
  destruct l as [|y l].
  - simpl. intros H. inversion H; subst.
    exists [], m, []. repeat split; intros x k k' [].
  - destruct (get (mov_dataHora m) "") as [kb|] eqn:Hk.
    + destruct (DataJud.max_resto (Dict m) (Some kb) (y :: l)) as [u|e] eqn:E;
        simpl; [|discriminate].
      destruct (max_resto_spec _ _ _ _ E)
        as [[-> Hall]|(l1 & m' & k & l2 & Hl & -> & Hk' & Hbk & H1 & H2)].
      * intros H. inversion H; subst.
        exists [], m, (y :: l). repeat split.
        -- intros x k k' [].
        -- intros x k k' Hin Hx Hm. simpl in Hm. rewrite Hk in Hm.
           inversion Hm; subst k. now apply (Hall x).
      * intros H. inversion H; subst. rewrite Hl.
        exists (Dict m :: l1), m', l2. repeat split.
        -- intros x k0 k' [<-|Hin] Hx Hm; simpl in Hk', Hm; rewrite Hk' in Hm;
             inversion Hm; subst k0.
           ++ simpl in Hx. rewrite Hk in Hx. inversion Hx; subst k'. exact Hbk.
           ++ now apply (H1 x).
        -- intros x k0 k' Hin Hx Hm. simpl in Hk', Hm. rewrite Hk' in Hm.
           inversion Hm; subst k0. now apply (H2 x).
    + destruct (DataJud.max_resto (Dict m) None (y :: l)) as [u|e] eqn:E;
        simpl; [|discriminate].
      exfalso. revert E. apply max_resto_None. discriminate.
Qed.

Lemma ultimo_movimento_maximo_witness :
  exists l1 m l2,
    Exemplos.tres_tutelas = (l1 ++ Dict m :: l2)%list
    /\ Some "Liminar" = get (mov_nome m) "N/A"
    /\ Some "2263-01-01T00:00:00.000Z" = get (mov_dataHora m) "N/A"
    /\ (forall x k k', In x l1 -> chave_de x = Some k' -> chave_de (Dict m) = Some k ->
                       (k' <? k)%string = true)
    /\ (forall x k k', In x l2 -> chave_de x = Some k' -> chave_de (Dict m) = Some k ->
                       (k <? k')%string = false).
Proof.
  apply (ultimo_movimento_maximo Exemplos.tres_tutelas). reflexivity.
Defined.

(** X6: the extraction of a hit returns exactly when the record is there,
    its class and issuing body are not [null], its subject list is not
    [null] and holds dicts only, and its movement list is missing, [null],
    empty, a single dict, or made of dicts whose dates are not [null];
    on every other hit it raises. *)
Theorem extrair_hit_ok (h : hit) :
  (exists i, DataJud.extrair_hit h = Ok i) <-> extraivel h = true.
Proof.
  unfold DataJud.extrair_hit, extraivel, source_de.
  destruct (source_ h) as [| |f]; simpl;
    try (split; [intros [i H]; discriminate | discriminate]).
  unfold sub_dict, lista.
  destruct (classe f) as [| |c]; simpl;
    try (split; [intros [i H]; discriminate | discriminate]);
    destruct (orgaoJulgador f) as [| |o]; simpl;
    try (split; [intros [i H]; discriminate | discriminate]);
    destruct (get (assuntos f) []) as [la|]; simpl;
    try (split; [intros [i H]; discriminate | discriminate]);
    rewrite andb_true_iff, <- ultimo_movimento_ok, forallb_forall;
    (split;
     [ intros [i H];
       destruct (para_cada _ la) as [nomes|e] eqn:Hn; simpl in H; [|discriminate];
       destruct (DataJud.ultimo_movimento _) as [u|e]; simpl in H; [|discriminate];
       split; [|now exists u];
       assert (Hall : exists ys, para_cada
                 (fun a : item cod_nome =>
                    match a with
                    | Dict d => Ok (get (nome d) "N/A")
                    | Outro => Raise AttributeError
                    end) la = Ok ys) by (now exists nomes);
       apply para_cada_ok in Hall; rewrite Forall_forall in Hall;
       intros x Hx; destruct (Hall x Hx) as [y Hy]; destruct x;
       [reflexivity | discriminate]
     | intros [Hall [u Hu]];
       assert (Hn : exists ys, para_cada
                 (fun a : item cod_nome =>
                    match a with
                    | Dict d => Ok (get (nome d) "N/A")
                    | Outro => Raise AttributeError
                    end) la = Ok ys)
         by (apply para_cada_ok; rewrite Forall_forall; intros x Hx;
             specialize (Hall x Hx); destruct x; [eauto | discriminate]);
       destruct Hn as [ys Hys]; rewrite Hys; simpl; rewrite Hu; simpl; eauto ]).
Qed.

(** ** More on the classifier *)
Section MaisClassificador.

Context {bib : Biblioteca}.
Import RceSaude.

(** X7: the classification of a hit returns exactly when the record is
    there, class, issuing body, subject list and movement list are not
    [null], and no movement has a [null] name; on every other hit it
    raises.  Non-dict entries and missing keys never make it raise. *)
Theorem classificar_ok_sse (h : hit) :
  (exists p, classificar h = Ok p) <-> bem_formado h = true.
Proof.
  split.
  - intros [p Hp]. now destruct (classificar_inv h p Hp).
  - apply classificar_total.
Qed.

Lemma tratar_data_Some (v : option string) (d : string) :
  _tratar_data v = Some d -> v = Some d /\ data_aceitavel (Some d).
Proof.
  unfold _tratar_data, to_datetime_coerce. destruct v as [s|]; [|discriminate].
  destruct (truthy_str (Some s)) eqn:Ht; cbn [negb]; [|discriminate].
  destruct (contem "2263" s) eqn:H3; [discriminate|].
  destruct (contem "2262" s) eqn:H2; [discriminate|].
  destruct (contem "2261" s) eqn:H1; [discriminate|]. cbn [orb].
  destruct (to_datetime s) as [dt| |] eqn:Hp; try discriminate.
  destruct (Z.ltb_spec (year dt) 1990); [discriminate|].
  destruct (Z.gtb_spec (year dt) 2030); [discriminate|]. cbn [orb].
  intros Hr. inversion Hr; subst d. split; [reflexivity|].
  exists s, dt. repeat split; try (apply contem_false; assumption);
    try lia; try assumption.
  now apply truthy_str_Some.
Qed.

(** X8: treating a date twice is treating it once. *)
Theorem tratar_data_idempotente (v : option string) :
  _tratar_data (_tratar_data v) = _tratar_data v.
Proof.
  destruct (_tratar_data v) as [d|] eqn:E; [|reflexivity].
  destruct (tratar_data_Some v d E) as [-> _]. exact E.
Qed.

Lemma tratar_data_limpa (v : option string) : data_limpa (_tratar_data v).
Proof.
  destruct (_tratar_data v) as [d|] eqn:E; [right|now left].
  now destruct (tratar_data_Some v d E).
Qed.

Lemma datas_limpas (sel : item movimento -> bool) (ms : list (item movimento))
      (d : string) :
  In d (datas sel ms) ->
  exists x, In x ms /\ sel x = true /\ data_de x = Some d.
Proof.
  unfold datas. rewrite in_flat_map. intros [x [Hx Hd]]. exists x.
  destruct (sel x); [|destruct Hd].
  destruct (data_de x) as [d'|]; [|destruct Hd].
  destruct Hd as [<-|[]]. auto.
Qed.

Lemma menor_de_limpa (sel : item movimento -> bool) (ms : list (item movimento))
      (r : option string) :
  menor_de (datas sel ms) r -> data_limpa r.
Proof.
  destruct r as [d|]; [|now left]. intros [Hin _]. right.
  destruct (datas_limpas sel ms d Hin) as [x [_ [_ Hd]]].
  destruct x as [m|]; [|discriminate]. simpl in Hd.
  now destruct (tratar_data_Some _ _ Hd).
Qed.

Lemma menor_de_existsb (sel : item movimento -> bool) (ms : list (item movimento))
      (d : string) :
  menor_de (datas sel ms) (Some d) -> existsb sel ms = true.
Proof.
  intros [Hin _]. destruct (datas_limpas sel ms d Hin) as [x [Hx [Hs _]]].
  apply existsb_exists. now exists x.
Qed.

(** The dates and the counts of a row, read off the record. *)
Lemma classificar_datas (h : hit) (p : processo) :
  classificar h = Ok p ->
  exists f,
    source_ h = Valor f
    /\ data_ajuizamento p = _tratar_data (get (dataAjuizamento f) "")
    /\ data_ultima_atualizacao p
       = _tratar_data (get (dataHoraUltimaAtualizacao f) "")
    /\ dias_tramitacao p
       = dias_entre (data_ajuizamento p) (data_ultima_atualizacao p)
    /\ total_movimentos p = Z.of_nat (List.length (movimentos_de h)).
Proof.
  unfold classificar, movimentos_de, source_de.
  destruct (source_ h) as [| |f]; simpl; try discriminate.
  unfold sub_dict, lista.
  destruct (classe f) as [| |c]; simpl; try discriminate;
    destruct (orgaoJulgador f) as [| |o]; simpl; try discriminate;
    destruct (assuntos f) as [| |la]; simpl; try discriminate;
    try destruct (percorrer_assuntos la) as [codigos nomes];
    destruct (movimentos f) as [| |ms]; simpl; try discriminate;
    try (intros H; inversion H; subst p; simpl; exists f; repeat split; reflexivity);
    destruct (percorrer estado_inicial ms) as [e|ex] eqn:Hp; simpl;
    try discriminate;
    intros H; inversion H; subst p; simpl; exists f; repeat split.
Qed.

(** X9: every date of a row that the classifier returns (filing, last
    update, first relief, first settlement) is either absent or a
    non-empty string without the sentinel years that parses to a year from
    1990 to 2030. *)
Theorem classificar_datas_limpas (h : hit) (p : processo) :
  classificar h = Ok p ->
  data_limpa (data_ajuizamento p)
  /\ data_limpa (data_ultima_atualizacao p)
  /\ data_limpa (data_primeira_tutela (flags p))
  /\ data_limpa (data_primeiro_acordo (flags p)).
Proof.
  intros Hp.
  destruct (classificar_datas h p Hp) as (f & _ & Ha & Hu & _).
  destruct (classificar_inv h p Hp) as (_ & Hloop & _).
  destruct (percorrer_primeiras_datas _ _ Hloop) as (Hdt & Hda).
  rewrite Ha, Hu. repeat split; try apply tratar_data_limpa.
  - exact (menor_de_limpa _ _ _ Hdt).
  - exact (menor_de_limpa _ _ _ Hda).
Qed.

(** X10: a first relief date is there only on a row with the relief flag,
    a first settlement date only with the settlement flag, and a number of
    days from relief to settlement only on a row that has both flags. *)
Theorem datas_implicam_flags (h : hit) (p : processo) :
  classificar h = Ok p ->
  (data_primeira_tutela (flags p) <> None -> tem_tutela (flags p) = true)
  /\ (data_primeiro_acordo (flags p) <> None -> tem_acordo (flags p) = true)
  /\ (dias_tutela_acordo p <> None -> tutela_e_acordo p = true).
Proof.
  intros Hp.
  destruct (classificar_inv h p Hp) as (_ & Hloop & Hta & Hdias).
  destruct (percorrer_primeiras_datas _ _ Hloop) as (Hdt & Hda).
  destruct (percorrer_flags _ _ _ Hloop) as (Ht & Hac & _).
  simpl in Ht, Hac.
  assert (A : data_primeira_tutela (flags p) <> None -> tem_tutela (flags p) = true).
  { destruct (data_primeira_tutela (flags p)) as [d|]; [|congruence].
    intros _. rewrite Ht. exact (menor_de_existsb _ _ _ Hdt). }
  assert (B : data_primeiro_acordo (flags p) <> None -> tem_acordo (flags p) = true).
  { destruct (data_primeiro_acordo (flags p)) as [d|]; [|congruence].
    intros _. rewrite Hac. exact (menor_de_existsb _ _ _ Hda). }
  repeat split; try assumption.
  intros Hd. rewrite Hta. rewrite Hdias in Hd.
  destruct (dias_entre _ _) as [n|] eqn:E; [|congruence].
  apply dias_entre_spec in E.
  destruct E as (i & f & _ & _ & Hi & Hf & _).
  rewrite A, B; [reflexivity | congruence | congruence].
Qed.

(** X11: the number of days in processing is there exactly when the
    treated filing date and the treated last-update date are both there,
    both parse, and the two timestamps can be subtracted (both carry a
    time zone or neither does); it is then the whole number of days
    (rounded down) from the filing timestamp to the last-update
    timestamp. *)
Theorem dias_tramitacao_spec (h : hit) (p : processo) (n : Z) :
  classificar h = Ok p ->
  (dias_tramitacao p = Some n <->
   exists inicio fim dt_inicio dt_fim,
     data_ajuizamento p = Some inicio
     /\ data_ultima_atualizacao p = Some fim
     /\ to_datetime inicio = Instante dt_inicio
     /\ to_datetime fim = Instante dt_fim
     /\ tz_aware dt_fim = tz_aware dt_inicio
     /\ n = (value dt_fim - value dt_inicio) / ns_por_dia).
Proof.
  intros Hp.
  destruct (classificar_datas h p Hp) as (f & _ & Ha & Hu & Hd & _).
  rewrite Hd, dias_entre_spec. split.
  - intros (i & u & ti & tu & Hi & Hf & _ & _ & Ei & Eu & Etz & Hn).
    exists i, u, ti, tu. repeat split; assumption.
  - intros (i & u & ti & tu & Hi & Hf & Ei & Eu & Etz & Hn).
    exists i, u, ti, tu. repeat split; try assumption.
    + rewrite Ha in Hi. exact (tratar_data_nao_vazia _ _ Hi).
    + rewrite Hu in Hf. exact (tratar_data_nao_vazia _ _ Hf).
Qed.

End MaisClassificador.

(** ** The order of the movements *)

Lemma existsb_perm {A : Type} (f : A -> bool) (l l' : list A) :
  Permutation l l' -> existsb f l = existsb f l'.
Proof.
  induction 1 as [|x l l' _ IH|x y l|l l' l'' _ IH1 _ IH2]; simpl.
  - reflexivity.
  - now rewrite IH.
  - now rewrite !orb_assoc, (orb_comm (f y)).
  - now rewrite IH1.
Qed.

Lemma forallb_perm {A : Type} (f : A -> bool) (l l' : list A) :
  Permutation l l' -> forallb f l = forallb f l'.
Proof.
  induction 1 as [|x l l' _ IH|x y l|l l' l'' _ IH1 _ IH2]; simpl.
  - reflexivity.
  - now rewrite IH.
  - now rewrite !andb_assoc, (andb_comm (f y)).
  - now rewrite IH1.
Qed.

Lemma menor_de_perm (ds ds' : list string) (r : option string) :
  Permutation ds ds' -> menor_de ds r -> menor_de ds' r.
Proof.
  intros Hp. destruct r as [d|]; simpl.
  - intros [Hin Hmin]. split.
    + exact (Permutation_in _ Hp Hin).
    + intros d' Hd'. apply Hmin. exact (Permutation_in _ (Permutation_sym Hp) Hd').
  - intros ->. now apply Permutation_nil.
Qed.

Section Ordem.

Context {bib : Biblioteca}.
Import RceSaude.

Lemma bem_formado_com_movimentos (f : fonte) (ms : list (item movimento)) :
  bem_formado {| source_ := Valor (com_movimentos f ms) |}
  = match classe f, orgaoJulgador f, assuntos f with
    | Nulo, _, _ | _, Nulo, _ | _, _, Nulo => false
    | _, _, _ => forallb nome_utilizavel ms
    end.
Proof.
  unfold bem_formado, movimentos_de. simpl.
  destruct (classe f), (orgaoJulgador f), (assuntos f); reflexivity.
Qed.

(** X12: the flags, the two first dates and the number of days from
    relief to settlement do not depend on the order of the movement list:
    when a record classifies, so does the record with its movements in any
    other order, with the same values. *)
Theorem classificar_permutacao (f : fonte) (ms ms' : list (item movimento))
        (p : processo) :
  Permutation ms ms' ->
  classificar {| source_ := Valor (com_movimentos f ms) |} = Ok p ->
  exists p',
    classificar {| source_ := Valor (com_movimentos f ms') |} = Ok p'
    /\ tem_tutela (flags p') = tem_tutela (flags p)
    /\ tem_acordo (flags p') = tem_acordo (flags p)
    /\ tem_deferimento (flags p') = tem_deferimento (flags p)
    /\ tem_indeferimento (flags p') = tem_indeferimento (flags p)
    /\ tem_sentenca (flags p') = tem_sentenca (flags p)
    /\ tutela_e_acordo p' = tutela_e_acordo p
    /\ data_primeira_tutela (flags p') = data_primeira_tutela (flags p)
    /\ data_primeiro_acordo (flags p') = data_primeiro_acordo (flags p)
    /\ dias_tutela_acordo p' = dias_tutela_acordo p.
Proof.
  intros Hperm Hp.
  destruct (classificar_inv _ _ Hp) as (Hbf & Hloop & Hta & Hdias).
  destruct (classificar_total {| source_ := Valor (com_movimentos f ms') |})
    as [p' Hp'].
  { rewrite bem_formado_com_movimentos in *.
    now rewrite <- (forallb_perm nome_utilizavel ms ms' Hperm). }
  exists p'. split; [exact Hp'|].
  destruct (classificar_inv _ _ Hp') as (_ & Hloop' & Hta' & Hdias').
  unfold movimentos_de in Hloop, Hloop'. simpl in Hloop, Hloop'.
  destruct (percorrer_flags _ _ _ Hloop) as (A & B & C & D & E).
  destruct (percorrer_flags _ _ _ Hloop') as (A' & B' & C' & D' & E').
  destruct (percorrer_primeiras_datas _ _ Hloop) as (Hdt & Hda).
  destruct (percorrer_primeiras_datas _ _ Hloop') as (Hdt' & Hda').
  assert (Pt : data_primeira_tutela (flags p') = data_primeira_tutela (flags p)).
  { apply (menor_de_unico (datas e_tutela ms')); [exact Hdt'|].
    apply (menor_de_perm (datas e_tutela ms)); [|exact Hdt].
    unfold datas. now apply Permutation_flat_map. }
  assert (Pa : data_primeiro_acordo (flags p') = data_primeiro_acordo (flags p)).
  { apply (menor_de_unico (datas e_acordo ms')); [exact Hda'|].
    apply (menor_de_perm (datas e_acordo ms)); [|exact Hda].
    unfold datas. now apply Permutation_flat_map. }
  rewrite Hta', Hta, Hdias', Hdias, Pt, Pa, A, B, C, D, E, A', B', C', D', E',
    <- !(existsb_perm _ ms ms' Hperm).
  repeat split.
Qed.

(** X13: when the collection returns, it returns nothing for a response
    without hits, and otherwise at least one row: one row for each hit, in
    the order of the hits, each the classification of its hit.  A response
    whose list of hits is empty does not get that far. *)
Theorem coletar_forma (r : option resposta) (ps : list processo) :
  coletar_processos_detalhados r = Ok ps <->
  (sem_hits r = true /\ ps = [])
  \/ (sem_hits r = false /\ ps <> []
      /\ exists hs, lista_de_hits r = Ok hs
                    /\ Forall2 (fun h p => classificar h = Ok p) hs ps).
Proof.
  unfold coletar_processos_detalhados.
  destruct (sem_hits r).
  - split.
    + intros H. inversion H. now left.
    + intros [[_ ->]|[H _]]; [reflexivity | discriminate].
  - destruct (lista_de_hits r) as [hs|e]; simpl.
    + split.
      * destruct (para_cada classificar hs) as [qs|e] eqn:Hq; simpl; [|discriminate].
        destruct qs as [|q qs]; [discriminate|].
        intros H. inversion H; subst ps. right.
        split; [reflexivity|]. split; [discriminate|].
        exists hs. split; [reflexivity|]. now apply para_cada_Forall2.
      * intros [[H _]|(_ & Hne & hs' & E & HF)]; [discriminate|].
        inversion E; subst hs'. apply para_cada_Forall2 in HF. rewrite HF. simpl.
        destruct ps; [congruence | reflexivity].
    + split; [discriminate|].
      intros [[H _]|(_ & _ & hs' & E & _)]; discriminate.
Qed.

End Ordem.

(** ** The retry loop *)

(** X14: [_fazer_requisicao] makes at least one and at most three
    requests, pauses two seconds between one request and the next and not
    after the last, stops at the first request answered with status 200
    and returns its body, and returns nothing when the third request
    fails as well. *)
Theorem fazer_requisicao_roteiro (post : Z -> Transporte.resposta_http) :
  exists n,
    (1 <= n <= 3)%nat
    /\ snd (Transporte._fazer_requisicao post) = roteiro 0 n
    /\ (forall i, (i < n - 1)%nat -> falhou (post (Z.of_nat i)))
    /\ fst (Transporte._fazer_requisicao post)
       = match post (Z.of_nat (n - 1)) with
         | Transporte.Http200 corpo => corpo
         | _ => None
         end
    /\ (falhou (post (Z.of_nat (n - 1))) -> n = 3%nat).
Proof.
  unfold Transporte._fazer_requisicao. simpl.
  destruct (post 0) as [c0|s0|] eqn:E0;
    try (exists 1%nat; simpl; rewrite E0; repeat split; try lia;
         intros H; destruct H);
    (destruct (post 1) as [c1|s1|] eqn:E1;
     [ exists 2%nat; simpl; rewrite E1; repeat split; try lia;
       [ intros i Hi; assert (i = 0%nat) as -> by lia; simpl; now rewrite E0
       | intros H; destruct H ]
     | | ]);
    exists 3%nat; simpl;
    (destruct (post 2) as [c2|s2|] eqn:E2; simpl; repeat split; try lia;
     intros i Hi; destruct i as [|[|i]]; simpl; try lia;
     try (now rewrite E0); now rewrite E1).
Qed.

(** ** The counts of the metrics *)
Section ContagensCoerentes.

Context {bib : Biblioteca}.
Import RceSaude.

Lemma soma_limites (f : processo -> bool) (df : list processo) :
  0 <= Metricas.soma f df <= Z.of_nat (List.length df).
Proof.
  unfold Metricas.soma. split; [lia|].
  apply Nat2Z.inj_le. induction df as [|p df IH]; simpl; [lia|].
  destruct (f p); simpl; lia.
Qed.

Lemma soma_le (f g : processo -> bool) (df : list processo) :
  Forall (fun p => f p = true -> g p = true) df ->
  Metricas.soma f df <= Metricas.soma g df.
Proof.
  unfold Metricas.soma. intros H. apply Nat2Z.inj_le.
  induction H as [|p df Hp _ IH]; simpl; [lia|].
  destruct (f p) eqn:Hf.
  - rewrite (Hp eq_refl). simpl. lia.
  - destruct (g p); simpl; lia.
Qed.

(** Every row that the collection returns is the classification of a hit. *)
Lemma coletar_linhas (r : option resposta) (df : list processo) :
  coletar_processos_detalhados r = Ok df ->
  Forall (fun p => exists h, classificar h = Ok p) df.
Proof.
  unfold coletar_processos_detalhados.
  destruct (sem_hits r).
  - intros H. inversion H. constructor.
  - destruct (lista_de_hits r) as [hs|e]; simpl; [|discriminate].
    destruct (para_cada classificar hs) as [qs|e] eqn:Hq; simpl; [|discriminate].
    destruct qs as [|q qs]; [discriminate|].
    intros H. inversion H; subst df.
    apply para_cada_Forall2 in Hq. clear H.
    induction Hq as [|h p hs' ps' Hh _ IH]; constructor; eauto.
Qed.

(** X15: on the rows of a collection that returned, the counts of the
    metrics are consistent: the rows with relief and settlement are among
    the rows with relief and among the rows with settlement, every count
    lies between 0 and the number of rows, and the number of rows is
    positive whenever there are metrics at all. *)
Theorem contagens_coerentes (r : option resposta) (df : list processo)
        (m : Metricas.contagens) :
  coletar_processos_detalhados r = Ok df ->
  Metricas.calcular_metricas_completas df = Some m ->
  0 < Metricas.total_processos m
  /\ 0 <= Metricas.processos_tutela_e_acordo m
     <= Metricas.processos_com_tutela m
  /\ Metricas.processos_tutela_e_acordo m <= Metricas.processos_com_acordo m
  /\ Metricas.processos_com_tutela m <= Metricas.total_processos m
  /\ Metricas.processos_com_acordo m <= Metricas.total_processos m
  /\ 0 <= Metricas.processos_com_deferimento m <= Metricas.total_processos m
  /\ 0 <= Metricas.processos_com_indeferimento m <= Metricas.total_processos m
  /\ 0 <= Metricas.processos_com_sentenca m <= Metricas.total_processos m.
Proof.
  intros Hc Hm. apply coletar_linhas in Hc.
  assert (Hrows : Forall (fun p => tutela_e_acordo p = true ->
                                   tem_tutela (flags p) = true
                                   /\ tem_acordo (flags p) = true) df).
  { apply Forall_impl with (2 := Hc). intros p [h Hp] Ht.
    destruct (classificar_inv h p Hp) as (_ & _ & Hta & _).
    rewrite Hta in Ht. now apply andb_true_iff in Ht. }
  unfold Metricas.calcular_metricas_completas in Hm.
  destruct df as [|p0 df0] eqn:Edf; [discriminate|]. rewrite <- Edf in *.
  inversion Hm; subst m; cbn [Metricas.total_processos
    Metricas.processos_com_tutela Metricas.processos_com_acordo
    Metricas.processos_tutela_e_acordo Metricas.processos_com_deferimento
    Metricas.processos_com_indeferimento Metricas.processos_com_sentenca].
  pose proof (soma_limites tutela_e_acordo df) as L0.
  pose proof (soma_limites (fun p => tem_tutela (flags p)) df) as L1.
  pose proof (soma_limites (fun p => tem_acordo (flags p)) df) as L2.
  pose proof (soma_limites (fun p => tem_deferimento (flags p)) df) as L3.
  pose proof (soma_limites (fun p => tem_indeferimento (flags p)) df) as L4.
  pose proof (soma_limites (fun p => tem_sentenca (flags p)) df) as L5.
  assert (M1 : Metricas.soma tutela_e_acordo df
               <= Metricas.soma (fun p => tem_tutela (flags p)) df).
  { apply soma_le. apply Forall_impl with (2 := Hrows). intros p H Ht.
    now destruct (H Ht). }
  assert (M2 : Metricas.soma tutela_e_acordo df
               <= Metricas.soma (fun p => tem_acordo (flags p)) df).
  { apply soma_le. apply Forall_impl with (2 := Hrows). intros p H Ht.
    now destruct (H Ht). }
  assert (Hpos : 0 < Z.of_nat (List.length df)) by (rewrite Edf; simpl; lia).
  repeat split; lia.
Qed.

End ContagensCoerentes.

(** ** Reading the metrics back from the summary sheet *)
Section Leitura.

Context {bib : Biblioteca} {conv : Conversoes}.
Import Visualizacao.

(** One row changes the effectiveness only when its lowered name has
    "efetividade" in it and none of the keywords tested before it. *)
Lemma linha_efetividade (m : metricas) (metrica valor : string) (v : flutuante) :
  efetividade (linha m (metrica, valor)) = Some v ->
  efetividade m = Some v
  \/ (contem "efetividade" (lower metrica) = true
      /\ contem "tutela" (lower metrica) = false
      /\ contem "acordo" (lower metrica) = false
      /\ float_py (valor_decimal valor) = Some v).
Proof.
  unfold linha.
  destruct (contem "total" (lower metrica) && contem "processo" (lower metrica)).
  { destruct (int_py (valor_limpo valor)); simpl; auto. }
  destruct (contem "tutela" (lower metrica)) eqn:Ht,
           (contem "acordo" (lower metrica)) eqn:Ha; cbn [andb negb];
    try (destruct (int_py (valor_limpo valor)); simpl; now auto).
  destruct (contem "efetividade" (lower metrica)) eqn:He; [|now auto].
  destruct (float_py (valor_decimal valor)) as [x|] eqn:Hf; simpl; [|now auto].
  intros H. inversion H; subst x. right. auto.
Qed.

Lemma fold_linha_efetividade (linhas : list (string * string)) :
  forall (m : metricas) (v : flutuante),
    efetividade (fold_left linha linhas m) = Some v ->
    efetividade m = Some v
    \/ exists metrica valor,
        In (metrica, valor) linhas
        /\ contem "efetividade" (lower metrica) = true
        /\ contem "tutela" (lower metrica) = false
        /\ contem "acordo" (lower metrica) = false
        /\ float_py (valor_decimal valor) = Some v.
Proof.
  induction linhas as [|[metrica valor] linhas IH]; intros m v; simpl; [auto|].
  intros H. apply IH in H. destruct H as [H|(me & va & Hin & H)].
  - apply linha_efetividade in H. destruct H as [H|H]; [now left|].
    right. exists metrica, valor. split; [now left | exact H].
  - right. exists me, va. split; [now right | exact H].
Qed.

(** X16: the effectiveness that [extrair_metricas] returns is either part
    of the demonstration values, returned as a whole when no row gave any
    value, or the number read from a row whose lowered name contains
    "efetividade" and neither "tutela" nor "acordo". *)
Theorem extrair_metricas_efetividade (df_resumo : option (list (string * string)))
        (v : flutuante) :
  efetividade (extrair_metricas df_resumo) = Some v ->
  extrair_metricas df_resumo = metricas_padrao
  \/ exists linhas metrica valor,
      df_resumo = Some linhas
      /\ In (metrica, valor) linhas
      /\ contem "efetividade" (lower metrica) = true
      /\ contem "tutela" (lower metrica) = false
      /\ contem "acordo" (lower metrica) = false
      /\ float_py (valor_decimal valor) = Some v.
Proof.
  unfold extrair_metricas.
  destruct df_resumo as [linhas|]; [|left; reflexivity].
  destruct (vazias (fold_left linha linhas metricas_vazias)); [now left|].
  intros H. apply fold_linha_efetividade in H.
  destruct H as [H|(me & va & H)]; [discriminate|].
  right. exists linhas, me, va. split; [reflexivity | exact H].
Qed.

End Leitura.

Lemma vazias_tutela_acordo {conv : Conversoes} (m : Visualizacao.metricas) (n : Z) :
  Visualizacao.tutela_acordo m = Some n -> Visualizacao.vazias m = false.
Proof.
  destruct m as [t tu a ta e]. simpl. intros ->.
  unfold Visualizacao.vazias. simpl. destruct t, tu, a; reflexivity.
Qed.

(** X17: read back from the summary sheet that [jurimetria_rce_saude.py]
    writes, the key [tutela_acordo] holds the value of the last row, the
    mean number of days from relief to settlement, whenever that value
    converts to an integer, not the count of the row "Tutela + Acordo";
    and the effectiveness is not read at all, because the name of its row
    contains "tutela". *)
Theorem resumo_lido_de_volta {conv : Conversoes}
        (v1 v2 v3 v4 v5 v6 v7 v8 : string) (n : Z) :
  int_py (Visualizacao.valor_limpo v8) = Some n ->
  let m := Visualizacao.extrair_metricas
             (bib := Iso.biblioteca)
             (Some (combine Visualizacao.rotulos_resumo
                            [v1; v2; v3; v4; v5; v6; v7; v8])) in
  Visualizacao.tutela_acordo m = Some n
  /\ Visualizacao.efetividade m = None.
Proof.
  intros H8 m. subst m. unfold Visualizacao.extrair_metricas.
  set (linhas := combine Visualizacao.rotulos_resumo
                         [v1; v2; v3; v4; v5; v6; v7; v8]).
  assert (Hta : Visualizacao.tutela_acordo
                  (fold_left (Visualizacao.linha (bib := Iso.biblioteca))
                             linhas Visualizacao.metricas_vazias) = Some n).
  { subst linhas.
    change (combine Visualizacao.rotulos_resumo [v1; v2; v3; v4; v5; v6; v7; v8])
      with ((combine (firstn 7 Visualizacao.rotulos_resumo)
                     [v1; v2; v3; v4; v5; v6; v7])
              ++ [("Tempo Médio Tutela→Acordo (dias)", v8)])%list.
    rewrite fold_left_app. cbn [fold_left].
    set (anterior := fold_left _ _ _).
    unfold Visualizacao.linha. cbn [lower Iso.biblioteca].
    match goal with
    | |- context [contem "total" ?x] =>
        replace (contem "total" x) with false by (vm_compute; reflexivity);
        replace (contem "tutela" x) with true by (vm_compute; reflexivity);
        replace (contem "acordo" x) with true by (vm_compute; reflexivity)
    end.
    cbn [andb negb]. rewrite H8. reflexivity. }
  assert (Hef : Visualizacao.efetividade
                  (fold_left (Visualizacao.linha (bib := Iso.biblioteca))
                             linhas Visualizacao.metricas_vazias) = None).
  { destruct (Visualizacao.efetividade _) as [x|] eqn:E; [|reflexivity].
    apply fold_linha_efetividade in E.
    destruct E as [E|(me & va & Hin & He & Ht & _)]; [discriminate|].
    exfalso. subst linhas. cbn [lower Iso.biblioteca] in He, Ht.
    simpl in Hin.
    repeat (destruct Hin as [Hin|Hin];
            [inversion Hin; subst me va; vm_compute in He; vm_compute in Ht;
             congruence|]).
    exact Hin. }
  rewrite (vazias_tutela_acordo _ n Hta). split; assumption.
Qed.

(** ** The further properties at the sample records *)

Lemma classificar_datas_limpas_witness :
  exists p,
    classificar (bib := Iso.biblioteca) (Exemplos.hit_de Exemplos.tres_tutelas) = Ok p
    /\ data_limpa (bib := Iso.biblioteca) (data_ajuizamento p)
    /\ data_limpa (bib := Iso.biblioteca) (data_ultima_atualizacao p)
    /\ data_limpa (bib := Iso.biblioteca) (data_primeira_tutela (flags p))
    /\ data_limpa (bib := Iso.biblioteca) (data_primeiro_acordo (flags p)).
Proof.
  eexists. split; [vm_compute; reflexivity|].
  apply (classificar_datas_limpas (bib := Iso.biblioteca)
           (Exemplos.hit_de Exemplos.tres_tutelas)).
  vm_compute. reflexivity.
Defined.

Lemma datas_implicam_flags_witness :
  exists p,
    classificar (bib := Iso.biblioteca)
                (Exemplos.hit_de Exemplos.tutela_depois_acordo) = Ok p
    /\ (data_primeira_tutela (flags p) <> None -> tem_tutela (flags p) = true)
    /\ (data_primeiro_acordo (flags p) <> None -> tem_acordo (flags p) = true)
    /\ (dias_tutela_acordo p <> None -> tutela_e_acordo p = true).
Proof.
  eexists. split; [vm_compute; reflexivity|].
  apply (datas_implicam_flags (bib := Iso.biblioteca)
           (Exemplos.hit_de Exemplos.tutela_depois_acordo)).
  vm_compute. reflexivity.
Defined.

(** Filed on 5 January and last updated on 2 April at 10:30, the record
    has been 88 whole days in processing. *)
Lemma dias_tramitacao_spec_witness :
  exists p,
    classificar (bib := Iso.biblioteca)
                (Exemplos.hit_de Exemplos.tutela_depois_acordo) = Ok p
    /\ dias_tramitacao p = Some 88.
Proof.
  eexists. split; [vm_compute; reflexivity|].
  eapply (proj2 (dias_tramitacao_spec (bib := Iso.biblioteca)
                   (Exemplos.hit_de Exemplos.tutela_depois_acordo) _ 88 _)).
  exists "2024-01-05T00:00:00.000Z"%string, "2024-04-02T10:30:00.000Z"%string,
    {| year := 2024; value := 1704412800000000000; tz_aware := true |},
    {| year := 2024; value := 1712053800000000000; tz_aware := true |}.
  repeat split.
  Unshelve. vm_compute. reflexivity.
Defined.

(** The settlement movement first or the relief movement first: the same
    first dates and the same number of days. *)
Lemma classificar_permutacao_witness :
  exists p p',
    classificar (bib := Iso.biblioteca)
      {| source_ := Valor (com_movimentos (Exemplos.fonte_de [])
                             Exemplos.tutela_depois_acordo) |} = Ok p
    /\ classificar (bib := Iso.biblioteca)
         {| source_ := Valor (com_movimentos (Exemplos.fonte_de [])
                                (rev Exemplos.tutela_depois_acordo)) |} = Ok p'
    /\ data_primeira_tutela (flags p') = data_primeira_tutela (flags p)
    /\ data_primeiro_acordo (flags p') = data_primeiro_acordo (flags p)
    /\ dias_tutela_acordo p' = dias_tutela_acordo p.
Proof.
  destruct (classificar_total (bib := Iso.biblioteca)
              {| source_ := Valor (com_movimentos (Exemplos.fonte_de [])
                                     Exemplos.tutela_depois_acordo) |} eq_refl)
    as [p Hp].
  destruct (classificar_permutacao (bib := Iso.biblioteca)
              (Exemplos.fonte_de []) Exemplos.tutela_depois_acordo
              (rev Exemplos.tutela_depois_acordo) p
              (Permutation_rev _) Hp)
    as (p' & Hp' & _ & _ & _ & _ & _ & _ & Ht & Ha & Hd).
  exists p, p'. repeat split; assumption.
Defined.

Lemma contagens_coerentes_witness :
  exists df m,
    coletar_processos_detalhados
      (bib := Iso.biblioteca)
      (Exemplos.resposta_de [Exemplos.hit_de Exemplos.tutela_depois_acordo;
                             Exemplos.hit_de Exemplos.so_indeferimento]) = Ok df
    /\ Metricas.calcular_metricas_completas df = Some m
    /\ Metricas.total_processos m = 2
    /\ Metricas.processos_tutela_e_acordo m <= Metricas.processos_com_tutela m
    /\ Metricas.processos_com_tutela m <= Metricas.total_processos m.
Proof.
  eexists. eexists. split; [vm_compute; reflexivity|].
  split; [vm_compute; reflexivity|]. split; [reflexivity|].
  match goal with
  | |- Metricas.processos_tutela_e_acordo ?m <= _ /\ _ =>
      pose proof (contagens_coerentes
                    (bib := Iso.biblioteca)
                    (Exemplos.resposta_de
                       [Exemplos.hit_de Exemplos.tutela_depois_acordo;
                        Exemplos.hit_de Exemplos.so_indeferimento])
                    _ m ltac:(vm_compute; reflexivity)
                    ltac:(vm_compute; reflexivity)) as H
  end.
  destruct H as (_ & [_ H1] & _ & H2 & _). split; assumption.
Defined.

(** A row named "Efetividade (%)" with the value "11,4%" gives the
    effectiveness 11.4. *)
Lemma extrair_metricas_efetividade_witness :
  Visualizacao.extrair_metricas
    (bib := Iso.biblioteca) (conv := IsoConv.conversoes)
    (Some [("Efetividade (%)", "11,4%")])
  = Visualizacao.metricas_padrao (conv := IsoConv.conversoes)
  \/ exists linhas metrica valor,
      Some [("Efetividade (%)", "11,4%")] = Some linhas
      /\ In (metrica, valor) linhas
      /\ contem "efetividade" (Iso.lower_latin1 metrica) = true
      /\ contem "tutela" (Iso.lower_latin1 metrica) = false
      /\ contem "acordo" (Iso.lower_latin1 metrica) = false
      /\ IsoConv.float_literal (Visualizacao.valor_decimal valor) = Some "11.4".
Proof.
  apply (extrair_metricas_efetividade
           (bib := Iso.biblioteca) (conv := IsoConv.conversoes)
           (Some [("Efetividade (%)", "11,4%")]) "11.4").
  vm_compute. reflexivity.
Defined.

(** The sheet of a run with 227 settlements after relief and a mean of 51
    days reads back as 51 under [tutela_acordo]. *)
Lemma resumo_lido_de_volta_witness :
  let m := Visualizacao.extrair_metricas
             (bib := Iso.biblioteca) (conv := IsoConv.conversoes)
             (Some (combine Visualizacao.rotulos_resumo
                            ["2,000"; "1,999"; "227"; "227";
                             "11.4%"; "60.0%"; "300"; "51"])) in
  Visualizacao.tutela_acordo m = Some 51
  /\ Visualizacao.efetividade m = None.
Proof.
  apply (resumo_lido_de_volta (conv := IsoConv.conversoes)
           "2,000" "1,999" "227" "227" "11.4%" "60.0%" "300" "51" 51).
  reflexivity.
Defined.
